(** * OSF OneDrive addon and contributor views: a shallow embedding

    The development follows three source files:
    - [website/project/views/contributor.py] (contributor abbreviation
      and the views that list users),
    - [website/addons/onedrive/model.py] (node settings of the addon),
    - [website/addons/onedrive/views.py] (HTTP views of the addon).

    Python values are modelled as the code uses them: [str] as [string],
    [int] as [Z], [None]-able attributes as [option], dictionaries with a
    fixed set of keys as records, exceptions as an inductive type threaded
    through a state-and-error monad. *)

From Stdlib Require Import ZArith Ascii.
From stdpp Require Import base strings list option.

Local Open Scope string_scope.

(** ** Python built-ins used by the source *)

Module Py.

(** [sep.join(l)] *)
Fixpoint join (sep : string) (l : list string) : string :=
  match l with
  | [] => ""
  | [x] => x
  | x :: l' => x +:+ sep +:+ join sep l'
  end.

(** [l[:k]]: a negative bound counts from the end of the list. *)
Definition slice_to {A} (l : list A) (k : Z) : list A :=
  if (0 <=? k)%Z then take (Z.to_nat k) l
  else take (Z.to_nat (Z.of_nat (length l) + k)) l.

(** [enumerate(l)] *)
Definition enumerate {A} (l : list A) : list (nat * A) :=
  imap (fun i x => (i, x)) l.

(** [s.startswith(p)] *)
Fixpoint startswith (p s : string) : bool :=
  match p, s with
  | EmptyString, _ => true
  | String a p', String b s' => if Ascii.eqb a b then startswith p' s' else false
  | String _ _, EmptyString => false
  end.

(** [s.endswith(c)] for a one-character suffix [c]. *)
Fixpoint endswith_char (c : Ascii.ascii) (s : string) : bool :=
  match s with
  | EmptyString => false
  | String a EmptyString => Ascii.eqb a c
  | String _ s' => endswith_char c s'
  end.

(** [s.replace(old, new)] for a non-empty [old]: the string is scanned
    from the left; at a match [new] is emitted and the scan resumes after
    the match, otherwise one character is copied.  [skip] counts the
    characters of a match that are still to be passed over. *)
Fixpoint replace_from (old new : string) (skip : nat) (s : string) : string :=
  match s with
  | EmptyString => EmptyString
  | String c s' =>
      match skip with
      | S k => replace_from old new k s'
      | O =>
          if startswith old s
          then new +:+ replace_from old new (String.length old - 1) s'
          else String c (replace_from old new 0 s')
      end
  end.

Definition replace (old new s : string) : string := replace_from old new 0 s.

(** [c not in s] *)
Fixpoint lacks (c : Ascii.ascii) (s : string) : bool :=
  match s with
  | EmptyString => true
  | String a s' => negb (Ascii.eqb a c) && lacks c s'
  end.

(** [os.path.join(a, b)] on a POSIX host, where [os.path] is
    [posixpath]: an absolute [b] discards [a]; a separator is inserted
    unless [a] is empty or already ends with one. *)
Definition posixpath_join (a b : string) : string :=
  if startswith "/" b then b
  else if bool_decide (a = "") || endswith_char "/"%char a then a +:+ b
  else a +:+ "/" +:+ b.

End Py.

(** ** Framework objects shared by the views *)

Module Framework.

(** A stored user; [==] on stored objects compares their stored fields. *)
Record User := { _primary_key : string; username : string }.

#[global] Instance User_eq_dec : EqDecision User.
Proof. solve_decision. Defined.

(** The project a view works on. *)
Record Node := { node_id : string; contributors : list User }.

Record Auth := { user : User }.

(** [httplib] status codes. *)
Definition BAD_REQUEST : Z := 400.
Definition FORBIDDEN : Z := 403.
Definition NOT_FOUND : Z := 404.

(** The exceptions the source raises, catches or lets through. *)
Inductive exn :=
| HTTPError (code : Z) (message_long : option string)
| AddonError (msg : string)
| OnedriveClientException (status_code : Z) (message : string)
| MaxRetryError
| AttributeError.

Inductive Result (A : Type) :=
| Return (a : A)
| Raise (e : exn).
Arguments Return {A} a.
Arguments Raise {A} e.

End Framework.

(** ** [website/project/views/contributor.py] *)

Module Contributor.

Import Framework.

(** One element of the ['contributors'] list of the response. *)
Record Entry := { user_id : string; separator : string }.

(** The response dictionary.  [others_count] starts as the empty string
    and becomes an integer on overflow: [None] stands for ['']. *)
Record Abbrev := {
  contributors : list Entry;
  others_count : option Z;
  others_suffix : string
}.

(** One iteration of [for index, user in enumerate(users[:max_count])]. *)
Definition loop_body (users : list User) (max_count : Z)
    (acc : Abbrev) (iu : nat * User) : Abbrev :=
  let index := Z.of_nat iu.1 in
  let user := iu.2 in
  let len_users := Z.of_nat (length users) in
  let n_contributors := len_users in
  if ((index =? max_count - 1) && (max_count <? len_users))%Z then
    let others_count := (n_contributors - 3)%Z in
    {| contributors :=
         contributors acc ++ [{| user_id := _primary_key user; separator := " &" |}];
       others_count := Some others_count;
       others_suffix := if (1 <? others_count)%Z then "s" else "" |}
  else
    let separator :=
      if (index =? len_users - 1)%Z then ""
      else if (index =? len_users - 2)%Z then " &"
      else "," in
    {| contributors :=
         contributors acc ++ [{| user_id := _primary_key user; separator := separator |}];
       others_count := others_count acc;
       others_suffix := others_suffix acc |}.

(** Lines 44-71: the abbreviation itself, once [users] and [max_count]
    are known. *)
Definition abbreviate (users : list User) (max_count : Z) : Abbrev :=
  fold_left (loop_body users max_count)
    (Py.enumerate (Py.slice_to users max_count))
    {| contributors := []; others_count := None; others_suffix := "" |}.

(** The view: [max_count] defaults to 3, and a caller who cannot view the
    node gets HTTP 403.  [users] is the list the view settles on before
    the check, [can_view] the outcome of [node_to_use.can_view(auth)]. *)
Definition get_node_contributors_abbrev
    (users : list User) (can_view : bool) (max_count : option Z) : Result Abbrev :=
  let max_count := default 3%Z max_count in
  if negb can_view then Raise (HTTPError FORBIDDEN None)
  else Return (abbreviate users max_count).

(** The separator rule in the words of the specification (section 4.4),
    for the index [i] of a list of [n] users. *)
Definition spec_separator (n max_count i : Z) : string :=
  if ((i =? Z.min n max_count - 1) && (max_count <? n))%Z then " &"
  else if (i =? n - 1)%Z then ""
  else if (i =? n - 2)%Z then " &"
  else ",".

(** The entry that rule gives at one enumerated position. *)
Definition rule_entry (n max_count : Z) (iu : nat * User) : Entry :=
  {| user_id := _primary_key iu.2;
     separator := spec_separator n max_count (Z.of_nat iu.1) |}.

(** The guard of the first branch of the loop. *)
Definition overflows (users : list User) (max_count : Z) (iu : nat * User) : bool :=
  ((Z.of_nat iu.1 =? max_count - 1) && (max_count <? Z.of_nat (length users)))%Z.

Definition separators (r : Abbrev) : list string := separator <$> contributors r.

Definition mk_users (ids : list string) : list User :=
  (fun i => {| _primary_key := i; username := i +:+ "@osf.io" |}) <$> ids.

End Contributor.

(** ** [website/addons/onedrive]: data, collaborators and effects *)

Module Onedrive.

Import Framework.

(** Remote folder metadata, the dictionary [client.get_folder] returns:
    [path_collection['entries']] and [item_collection['entries']] are kept
    as lists, the keys the code reads as fields.  An absent
    ['is_deleted'] key reads as [false] through [.get]. *)
Record PathEntry := { entry_name : string }.
Record Item := { item_id : string; item_name : string; item_type : string }.
Record FolderMetadata := {
  md_id : string;
  md_name : string;
  path_collection : list PathEntry;
  item_collection : list Item;
  is_deleted : bool
}.

(** The OAuth credential ([self.external_account]). *)
Record ExternalAccount := {
  oauth_key : string;
  refresh_token : string;
  expires_at : Z
}.

(** The user-level settings record.  [us_has_auth] is the value of the
    base-class property [has_auth], whose code is outside this fragment;
    [grants] pairs a project id with the granted metadata. *)
Record OnedriveUserSettings := {
  us_owner : User;
  us_has_auth : bool;
  grants : list (string * option string)
}.

(** [OnedriveNodeSettings]: the three stored fields, the two references and
    the in-process memo [_folder_data].  String fields without a default
    are [None] until assigned. *)
Record OnedriveNodeSettings := {
  owner : Node;
  user_settings : option OnedriveUserSettings;
  external_account : option ExternalAccount;
  folder_id : option string;
  folder_name : option string;
  folder_path : option string;
  _folder_data : option FolderMetadata
}.

(** What [self.save()] writes: the stored fields, not the memo. *)
Record Stored := {
  st_folder_id : option string;
  st_folder_name : option string;
  st_folder_path : option string;
  st_linked : bool
}.

Inductive RemoteCall :=
| CallRefresh (refresh_token : string)
| CallGetFolder (token folder_id : string).

Record LogEntry := {
  log_action : string;
  log_extra : option (option string);
  log_auth : option Auth
}.

(** The state an operation runs in: the node-settings instance in memory,
    and the history of what it did to the outside (newest first). *)
Record World := {
  addon : OnedriveNodeSettings;
  remote_calls : list RemoteCall;
  saved : list Stored;
  saved_accounts : list ExternalAccount;
  saved_user_settings : list OnedriveUserSettings;
  logs : list LogEntry
}.

Inductive QueryArg := ArgInt (z : Z) | ArgStr (s : string).

(** How a call to the provider can fail: the client library reports an
    error of the provider, or the transport gives up retrying. *)
Inductive RemoteError :=
| ClientError (status_code : Z) (message : string)
| RetryExhausted.

Definition remote_exn (e : RemoteError) : exn :=
  match e with
  | ClientError status_code message => OnedriveClientException status_code message
  | RetryExhausted => MaxRetryError
  end.

(** The external collaborators: the clock, the OAuth refresh endpoint, the
    storage client and the URL builder of the web framework. *)
Record Env := {
  now : Z;
  oauth_refresh : string -> RemoteError + ExternalAccount;
  client_get_folder : string -> string -> RemoteError + FolderMetadata;
  api_url_for : Node -> string -> QueryArg -> string
}.

(** *** The state-and-error monad *)

Definition M (A : Type) : Type := World -> Result A * World.

#[global] Instance M_ret : MRet M := fun A a w => (Return a, w).
#[global] Instance M_bind : MBind M := fun A B f m w =>
  match m w with
  | (Return a, w') => f a w'
  | (Raise e, w') => (Raise e, w')
  end.

Definition raise {A} (e : exn) : M A := fun w => (Raise e, w).
Definition gets {A} (f : OnedriveNodeSettings -> A) : M A :=
  fun w => (Return (f (addon w)), w).
Definition modify (f : OnedriveNodeSettings -> OnedriveNodeSettings) : M unit :=
  fun w =>
    (Return tt,
     {| addon := f (addon w); remote_calls := remote_calls w; saved := saved w;
        saved_accounts := saved_accounts w;
        saved_user_settings := saved_user_settings w; logs := logs w |}).

(** [try: m  except OnedriveClientException as error: h error] *)
Definition try_except_client {A} (m : M A) (h : Z -> string -> M A) : M A :=
  fun w =>
    match m w with
    | (Raise (OnedriveClientException status_code message), w') =>
        h status_code message w'
    | r => r
    end.

(** [try: m  except MaxRetryError: h] *)
Definition try_except_retry {A} (m : M A) (h : M A) : M A :=
  fun w =>
    match m w with
    | (Raise MaxRetryError, w') => h w'
    | r => r
    end.

(** Field assignments. *)
Definition with_user_settings v (s : OnedriveNodeSettings) :=
  {| owner := owner s; user_settings := v; external_account := external_account s;
     folder_id := folder_id s; folder_name := folder_name s;
     folder_path := folder_path s; _folder_data := _folder_data s |}.
Definition with_external_account v (s : OnedriveNodeSettings) :=
  {| owner := owner s; user_settings := user_settings s; external_account := v;
     folder_id := folder_id s; folder_name := folder_name s;
     folder_path := folder_path s; _folder_data := _folder_data s |}.
Definition with_folder_id v (s : OnedriveNodeSettings) :=
  {| owner := owner s; user_settings := user_settings s;
     external_account := external_account s;
     folder_id := v; folder_name := folder_name s;
     folder_path := folder_path s; _folder_data := _folder_data s |}.
Definition with_folder_name v (s : OnedriveNodeSettings) :=
  {| owner := owner s; user_settings := user_settings s;
     external_account := external_account s;
     folder_id := folder_id s; folder_name := v;
     folder_path := folder_path s; _folder_data := _folder_data s |}.
Definition with_folder_path v (s : OnedriveNodeSettings) :=
  {| owner := owner s; user_settings := user_settings s;
     external_account := external_account s;
     folder_id := folder_id s; folder_name := folder_name s;
     folder_path := v; _folder_data := _folder_data s |}.
Definition with_folder_data v (s : OnedriveNodeSettings) :=
  {| owner := owner s; user_settings := user_settings s;
     external_account := external_account s;
     folder_id := folder_id s; folder_name := folder_name s;
     folder_path := folder_path s; _folder_data := v |}.

(** *** Effects on the outside *)

Definition call (c : RemoteCall) : M unit := fun w =>
  (Return tt,
   {| addon := addon w; remote_calls := c :: remote_calls w; saved := saved w;
      saved_accounts := saved_accounts w;
      saved_user_settings := saved_user_settings w; logs := logs w |}).

Definition stored_of (s : OnedriveNodeSettings) : Stored :=
  {| st_folder_id := folder_id s; st_folder_name := folder_name s;
     st_folder_path := folder_path s;
     st_linked := bool_decide (is_Some (external_account s)) |}.

(** [self.save()] *)
Definition save : M unit := fun w =>
  (Return tt,
   {| addon := addon w; remote_calls := remote_calls w;
      saved := stored_of (addon w) :: saved w;
      saved_accounts := saved_accounts w;
      saved_user_settings := saved_user_settings w; logs := logs w |}).

(** [external_account.save()] *)
Definition save_account (a : ExternalAccount) : M unit := fun w =>
  (Return tt,
   {| addon := addon w; remote_calls := remote_calls w; saved := saved w;
      saved_accounts := a :: saved_accounts w;
      saved_user_settings := saved_user_settings w; logs := logs w |}).

(** [self.user_settings.save()] *)
Definition save_user_settings (us : OnedriveUserSettings) : M unit := fun w =>
  (Return tt,
   {| addon := addon w; remote_calls := remote_calls w; saved := saved w;
      saved_accounts := saved_accounts w;
      saved_user_settings := us :: saved_user_settings w; logs := logs w |}).

(** [OnedriveNodeLogger(node, auth).log(action, extra, save=True)] *)
Definition log (action : string) (extra : option (option string))
    (auth : option Auth) : M unit := fun w =>
  (Return tt,
   {| addon := addon w; remote_calls := remote_calls w; saved := saved w;
      saved_accounts := saved_accounts w;
      saved_user_settings := saved_user_settings w;
      logs := {| log_action := action; log_extra := extra; log_auth := auth |}
                :: logs w |}).

(** *** [model.py] *)

Section Model.

Variable E : Env.

(** [OnedriveNodeSettings.has_auth] *)
Definition has_auth (s : OnedriveNodeSettings) : bool :=
  match user_settings s with
  | Some us => us_has_auth us
  | None => false
  end.

(** Modelled from the spec: [verify_oauth_access] and
    [grant_oauth_access] belong to the base class of the user settings,
    which is not part of this fragment.  The spec keeps, per user, a set
    of grants (project, metadata); a node is fully authorized once a
    grant for its project is recorded. *)
Definition verify_oauth_access (us : OnedriveUserSettings) (node : Node) : bool :=
  bool_decide (node_id node ∈ (fst <$> grants us)).

Definition grant_oauth_access (us : OnedriveUserSettings) (node : Node)
    (metadata : option string) : OnedriveUserSettings :=
  {| us_owner := us_owner us; us_has_auth := us_has_auth us;
     grants := (node_id node, metadata) :: grants us |}.

(** [OnedriveNodeSettings.complete] *)
Definition complete (s : OnedriveNodeSettings) : bool :=
  has_auth s &&
  match user_settings s with
  | Some us => verify_oauth_access us (owner s)
  | None => false
  end.

Definition expired (a : ExternalAccount) : bool := (expires_at a <=? now E)%Z.

(** Modelled from the spec: [refresh_oauth_key] lives in the addon's
    [utils] module, which is not part of this fragment.  Section 4.1: an
    unexpired token is left as it is; an expired one is exchanged at the
    refresh endpoint, the new pair is persisted, and a failure of the
    endpoint surfaces at once (the callers in this fragment catch it as
    [OnedriveClientException]).  Called on [self.external_account]; a
    missing account has no attributes to read. *)
Definition refresh_oauth_key : M unit :=
  acct ← gets external_account;
  match acct with
  | None => raise AttributeError
  | Some a =>
      if expired a then
        call (CallRefresh (refresh_token a));;
        match oauth_refresh E (refresh_token a) with
        | inl e => raise (remote_exn e)
        | inr a' =>
            modify (with_external_account (Some a'));; save_account a'
        end
      else mret tt
  end.

(** [self.external_account.oauth_key] *)
Definition current_oauth_key : M string :=
  acct ← gets external_account;
  match acct with
  | None => raise AttributeError
  | Some a => mret (oauth_key a)
  end.

(** [refresh_oauth_key(self.external_account)] followed by a read of
    [self.external_account.oauth_key]; where the source wraps the key in
    [OnedriveClient(...)], the client is represented by that key. *)
Definition authenticated_client : M string :=
  refresh_oauth_key;; current_oauth_key.

(** [client.get_folder(folder_id)] *)
Definition get_folder (client folder_id : string) : M FolderMetadata :=
  call (CallGetFolder client folder_id);;
  match client_get_folder E client folder_id with
  | inr md => mret md
  | inl e => raise (remote_exn e)
  end.

(** ['/'.join([x['name'] for x in entries] + [name])] *)
Definition full_path (md : FolderMetadata) : string :=
  Py.join "/" ((entry_name <$> path_collection md) ++ [md_name md]).

(** The body of the [try] of [_update_folder_data]. *)
Definition fetch_folder_data (fid : string) : M (option FolderMetadata) :=
  client ← authenticated_client;
  md ← get_folder client fid;
  modify (with_folder_data (Some md));;
  mret (Some md).

(** [OnedriveNodeSettings._update_folder_data].  A fetched dictionary
    has keys, so [not self._folder_data] holds exactly for [None]. *)
Definition _update_folder_data : M unit :=
  fid ← gets folder_id;
  match fid with
  | None => mret tt
  | Some fid =>
      memo ← gets _folder_data;
      match memo with
      | Some _ => mret tt
      | None =>
          fetched ← try_except_client (fetch_folder_data fid)
                                      (fun _ _ => mret None);
          match fetched with
          | None => mret tt
          | Some md =>
              modify (with_folder_name (Some (md_name md)));;
              modify (with_folder_path (Some (full_path md)));;
              save
          end
      end
  end.

(** [OnedriveNodeSettings.fetch_folder_name] *)
Definition fetch_folder_name : M string :=
  _update_folder_data;;
  name ← gets folder_name;
  match name with
  | None => raise AttributeError
  | Some name => mret (Py.replace "All Files" "/ (Full Onedrive)" name)
  end.

(** [OnedriveNodeSettings.fetch_full_folder_path] *)
Definition fetch_full_folder_path : M (option string) :=
  _update_folder_data;;
  gets folder_path.

(** [OnedriveNodeSettings.set_folder]; [folder_id] arrives as a string,
    on which [str] is the identity. *)
Definition set_folder (new_id : string) (auth : option Auth) : M unit :=
  modify (with_folder_id (Some new_id));;
  _update_folder_data;;
  save;;
  done ← gets complete;
  (if negb done then
     us ← gets user_settings;
     match us with
     | None => raise AttributeError
     | Some us =>
         node ← gets owner;
         fid ← gets folder_id;
         let us' := grant_oauth_access us node fid in
         modify (with_user_settings (Some us'));;
         save_user_settings us'
     end
   else mret tt);;
  log "folder_selected" None auth.

(** [OnedriveNodeSettings.set_user_auth] *)
Definition set_user_auth (us : OnedriveUserSettings) : M unit :=
  modify (with_user_settings (Some us));;
  log "node_authorized" None (Some {| user := us_owner us |}).

(** Modelled from the spec: [clear_auth] belongs to the base class of
    the node settings, which is not part of this fragment; the spec has
    deauthorization clear the credential reference. *)
Definition clear_auth : M unit :=
  modify (with_external_account None).

(** [OnedriveNodeSettings.deauthorize] *)
Definition deauthorize (auth : option Auth) (add_log : bool) : M unit :=
  (if add_log then
     fid ← gets folder_id;
     log "node_deauthorized" (Some fid) auth
   else mret tt);;
  modify (with_folder_id None);;
  _update_folder_data;;
  modify (with_user_settings None);;
  clear_auth;;
  save.

(** The dictionaries handed to the file server. *)
Record Credentials := { token : string }.
Record Settings := { folder : string }.

(** [OnedriveNodeSettings.serialize_waterbutler_credentials] *)
Definition serialize_waterbutler_credentials : M Credentials :=
  authorized ← gets has_auth;
  if negb authorized then raise (AddonError "Addon is not authorized")
  else
    try_except_client
      (key ← authenticated_client;
       mret {| token := key |})
      (fun status_code message =>
         raise (HTTPError status_code (Some message))).

(** [OnedriveNodeSettings.serialize_waterbutler_settings] *)
Definition serialize_waterbutler_settings : M Settings :=
  fid ← gets folder_id;
  match fid with
  | None => raise (AddonError "Folder is not configured")
  | Some fid => mret {| folder := fid |}
  end.

End Model.

(** *** [views.py] *)

Section Views.

Variable E : Env.

(** One element of the folder listing. *)
Record FolderEntry := {
  fe_addon : string;
  fe_kind : string;
  fe_id : string;
  fe_name : string;
  fe_path : string;
  fe_urls_folders : string
}.

(** [onedrive_get_share_emails]: the body after the decorators; it only
    reads the node settings. *)
Definition onedrive_get_share_emails (auth : Auth)
    (node_addon : OnedriveNodeSettings) : Result (list string) :=
  match user_settings node_addon with
  | None => Raise (HTTPError BAD_REQUEST None)
  | Some us =>
      if bool_decide (us_owner us ≠ user auth)
      then Raise (HTTPError FORBIDDEN None)
      else Return (username <$>
             filter (fun contrib => contrib ≠ user auth)
                    (contributors (owner node_addon)))
  end.

(** The entry returned for an absent [folderId]. *)
Definition root_entry (node : Node) : FolderEntry :=
  {| fe_id := "0";
     fe_path := "All Files";
     fe_addon := "onedrive";
     fe_kind := "folder";
     fe_name := "/ (Full Onedrive)";
     fe_urls_folders := api_url_for E node "onedrive_folder_list" (ArgInt 0) |}.

(** The entry built for one folder item of the fetched metadata. *)
Definition child_entry (node : Node) (folder_path : string) (item : Item)
    : FolderEntry :=
  {| fe_addon := "onedrive";
     fe_kind := "folder";
     fe_id := item_id item;
     fe_name := item_name item;
     fe_path := Py.posixpath_join folder_path (item_name item);
     fe_urls_folders :=
       api_url_for E node "onedrive_folder_list" (ArgStr (item_id item)) |}.

(** [onedrive_folder_list]: the body after the decorators; [folderId] is
    [request.args.get('folderId')]. *)
Definition onedrive_folder_list (folderId : option string)
    : M (list FolderEntry) :=
  authorized ← gets has_auth;
  if negb authorized then raise (HTTPError FORBIDDEN None)
  else
    node ← gets owner;
    match folderId with
    | None => mret [root_entry node]
    | Some folder_id =>
        client ← try_except_client
                   (authenticated_client E)
                   (fun _ _ => raise (HTTPError FORBIDDEN None));
        (* one [try] with two handlers; neither handler raises what
           the other catches *)
        metadata ← try_except_retry
                     (try_except_client
                        (get_folder E client folder_id)
                        (fun _ _ => raise (HTTPError NOT_FOUND None)))
                     (raise (HTTPError BAD_REQUEST None));
        if is_deleted metadata then raise (HTTPError NOT_FOUND None)
        else
          let folder_path := full_path metadata in
          mret (child_entry node folder_path <$>
                  filter (fun item => item_type item = "folder")
                         (item_collection metadata))
    end.

End Views.

(** The names the specification gives to the failures of the listing. *)
Definition NotFoundError : exn := HTTPError NOT_FOUND None.
Definition TransientError : exn := HTTPError BAD_REQUEST None.
Definition ForbiddenError : exn := HTTPError FORBIDDEN None.

(** [run m w]: the outcome of an operation, and the world it leaves. *)
Definition run {A} (m : M A) (w : World) : Result A * World := m w.

(** The child path in the words of the specification: the names of
    [path_collection], the folder's own name and the item's name, joined
    by forward slashes. *)
Definition spec_child_path (md : FolderMetadata) (item : Item) : string :=
  Py.join "/" ((entry_name <$> path_collection md) ++ [md_name md; item_name item]).

(** [tok] is the key of the linked credential, and that credential has
    not expired. *)
Definition fresh_token (E : Env) (w : World) (tok : string) : Prop :=
  ∃ a, external_account (addon w) = Some a
       ∧ oauth_key a = tok ∧ expired E a = false.

(** Two worlds agree on the linked folder, on its memo and on what was
    persisted of the node settings. *)
Definition same_folder (w w1 : World) : Prop :=
  folder_id (addon w1) = folder_id (addon w)
  ∧ folder_name (addon w1) = folder_name (addon w)
  ∧ folder_path (addon w1) = folder_path (addon w)
  ∧ _folder_data (addon w1) = _folder_data (addon w)
  ∧ saved w1 = saved w.

(** The Unconfigured state of the linked folder as the specification
    describes it: no folder id, no cached metadata, no credential. *)
Definition unconfigured (s : OnedriveNodeSettings) : Prop :=
  folder_id s = None ∧ folder_name s = None ∧ folder_path s = None
  ∧ _folder_data s = None ∧ external_account s = None.

End Onedrive.

(** ** Concrete projects, accounts and providers used in the examples *)

Module Fixtures.

Import Framework Onedrive.

Definition alice : User := {| _primary_key := "u1"; username := "alice@osf.io" |}.
Definition bob : User := {| _primary_key := "u2"; username := "bob@osf.io" |}.
Definition carol : User := {| _primary_key := "u3"; username := "carol@osf.io" |}.

Definition project : Node :=
  {| node_id := "n1"; contributors := [alice; bob; carol] |}.

Definition valid_account : ExternalAccount :=
  {| oauth_key := "key-1"; refresh_token := "refresh-1"; expires_at := 100 |}.
Definition expired_account : ExternalAccount :=
  {| oauth_key := "key-0"; refresh_token := "refresh-0"; expires_at := 10 |}.
Definition renewed_account : ExternalAccount :=
  {| oauth_key := "key-2"; refresh_token := "refresh-2"; expires_at := 200 |}.

Definition alice_settings : OnedriveUserSettings :=
  {| us_owner := alice; us_has_auth := true; grants := [] |}.

(** The folder of the specification's scenario. *)
Definition reports : FolderMetadata :=
  {| md_id := "123"; md_name := "Reports";
     path_collection := [{| entry_name := "Documents" |}];
     item_collection :=
       [{| item_id := "1"; item_name := "Q1"; item_type := "folder" |};
        {| item_id := "2"; item_name := "notes.txt"; item_type := "file" |}];
     is_deleted := false |}.

Definition photos : FolderMetadata :=
  {| md_id := "456"; md_name := "Photos";
     path_collection := [{| entry_name := "Pictures" |}];
     item_collection := [];
     is_deleted := false |}.

(** A folder one of whose children has a name that starts with a slash. *)
Definition slashed : FolderMetadata :=
  {| md_id := "124"; md_name := "Reports";
     path_collection := [{| entry_name := "Documents" |}];
     item_collection :=
       [{| item_id := "1"; item_name := "/Q1"; item_type := "folder" |}];
     is_deleted := false |}.

(** A folder without ancestors and with an empty name. *)
Definition nameless : FolderMetadata :=
  {| md_id := "125"; md_name := "";
     path_collection := [];
     item_collection :=
       [{| item_id := "1"; item_name := "Q1"; item_type := "folder" |}];
     is_deleted := false |}.

Definition trashed : FolderMetadata :=
  {| md_id := "666"; md_name := "Old";
     path_collection := [];
     item_collection := [];
     is_deleted := true |}.

Definition url (node : Node) (view : string) (arg : QueryArg) : string :=
  "/api/v1/project/" +:+ node_id node +:+ "/" +:+ view +:+ "/?folderId=" +:+
  match arg with ArgInt _ => "0" | ArgStr s => s end.

Definition drive (token fid : string) : RemoteError + FolderMetadata :=
  if bool_decide (fid = "123") then inr reports
  else if bool_decide (fid = "456") then inr photos
  else if bool_decide (fid = "124") then inr slashed
  else if bool_decide (fid = "125") then inr nameless
  else if bool_decide (fid = "666") then inr trashed
  else if bool_decide (fid = "timeout") then inl RetryExhausted
  else inl (ClientError 403 "access denied").

(** A provider that answers, and renews expired tokens. *)
Definition provider : Env :=
  {| now := 50;
     oauth_refresh := fun _ => inr renewed_account;
     client_get_folder := drive;
     api_url_for := url |}.

(** A provider whose refresh endpoint rejects the refresh token. *)
Definition rejecting_provider : Env :=
  {| now := 50;
     oauth_refresh := fun _ => inl (ClientError 401 "invalid refresh token");
     client_get_folder := drive;
     api_url_for := url |}.

Definition world_of (s : OnedriveNodeSettings) : World :=
  {| addon := s; remote_calls := []; saved := []; saved_accounts := [];
     saved_user_settings := []; logs := [] |}.

(** A node linked to Alice's account, no folder chosen yet. *)
Definition linked : OnedriveNodeSettings :=
  {| owner := project; user_settings := Some alice_settings;
     external_account := Some valid_account;
     folder_id := None; folder_name := None; folder_path := None;
     _folder_data := None |}.

(** The same node when the stored token has expired. *)
Definition linked_expired : OnedriveNodeSettings :=
  with_external_account (Some expired_account) linked.

(** A node nobody has authorized. *)
Definition unlinked : OnedriveNodeSettings :=
  {| owner := project; user_settings := None; external_account := None;
     folder_id := None; folder_name := None; folder_path := None;
     _folder_data := None |}.

(** A node configured for the scenario's folder, metadata already fetched. *)
Definition configured : OnedriveNodeSettings :=
  {| owner := project; user_settings := Some alice_settings;
     external_account := Some valid_account;
     folder_id := Some "123"; folder_name := Some "Reports";
     folder_path := Some "Documents/Reports";
     _folder_data := Some reports |}.

(** A node whose folder is chosen but whose metadata was never fetched. *)
Definition stale : OnedriveNodeSettings :=
  {| owner := project; user_settings := Some alice_settings;
     external_account := Some valid_account;
     folder_id := Some "no-such-folder"; folder_name := Some "Earlier";
     folder_path := Some "Somewhere/Earlier";
     _folder_data := None |}.

End Fixtures.

(** ** [website/project/views/contributor.py]: the views that list users *)

Module ContributorViews.

Import Framework.

(** An element of [node.contributor_list]: a dictionary that has the key
    ['id'] for a registered contributor, and only other keys for one who
    is not registered. *)
Record ContribDict := {
  cd_id : option string;
  cd_fields : list (string * string)
}.

(** The dictionary built by [_add_contributor_json]. *)
Record ContributorJson := {
  cj_fullname : string;
  cj_id : string;
  cj_registered : bool;
  cj_active : bool;
  cj_gravatar : string
}.

(** What the views read of a user beyond the stored identity, and what
    they call outside this file: [User.load], the [gravatar] filter, the
    serializers of [website.profile.utils] and a constant of the
    settings.  [Json] is whatever the serializers return. *)
Record Site (Json : Type) := {
  fullname : User -> string;
  is_registered : User -> bool;
  is_active : User -> bool;
  gravatar : User -> bool -> Z -> string;
  GRAVATAR_SIZE_ADD_CONTRIBUTOR : Z;
  load : string -> option User;
  serialize_user : User -> Json;
  serialize_unreg_user : ContribDict -> Json
}.
Arguments fullname {Json} _ _.
Arguments is_registered {Json} _ _.
Arguments is_active {Json} _ _.
Arguments gravatar {Json} _ _ _ _.
Arguments GRAVATAR_SIZE_ADD_CONTRIBUTOR {Json} _.
Arguments load {Json} _ _.
Arguments serialize_user {Json} _ _.
Arguments serialize_unreg_user {Json} _ _.

Section Views.

Context {Json : Type}.
Variable site : Site Json.

(** [_add_contributor_json] *)
Definition _add_contributor_json (user : User) : ContributorJson :=
  {| cj_fullname := fullname site user;
     cj_id := _primary_key user;
     cj_registered := is_registered site user;
     cj_active := is_active site user;
     cj_gravatar := gravatar site user true (GRAVATAR_SIZE_ADD_CONTRIBUTOR site) |}.

(** One iteration of the loop of [_jsonify_contribs], on the pair of
    [data] and of the lines written to [logger.error] so far. *)
Definition jsonify_step (acc : list Json * list string) (contrib : ContribDict)
    : list Json * list string :=
  match cd_id contrib with
  | Some id =>
      match load site id with
      | None => (acc.1, (acc.2 ++ ["User " +:+ id +:+ " not found"])%list)
      | Some user => ((acc.1 ++ [serialize_user site user])%list, acc.2)
      end
  | None => ((acc.1 ++ [serialize_unreg_user site contrib])%list, acc.2)
  end.

(** [_jsonify_contribs]: the list it returns, and the error log. *)
Definition _jsonify_contribs (contribs : list ContribDict)
    : list Json * list string :=
  fold_left jsonify_step contribs ([], []).

(** [get_contributors]: the body after the decorators; [can_view] is the
    outcome of [node_to_use.can_view(auth)].  Nothing is logged when the
    caller is turned away. *)
Definition get_contributors (contributor_list : list ContribDict)
    (can_view : bool) : Result (list Json) * list string :=
  if negb can_view then (Raise (HTTPError FORBIDDEN None), [])
  else
    let contribs := _jsonify_contribs contributor_list in
    (Return contribs.1, contribs.2).

(** [get_contributors_from_parent]; [node__parent] is the list of that
    name, whose first element, if any, is the parent. *)
Definition get_contributors_from_parent (node_to_use : Node)
    (node__parent : list Node) (can_view : bool) : Result (list ContributorJson) :=
  match head node__parent with
  | None => Raise (HTTPError BAD_REQUEST None)
  | Some parent =>
      if negb can_view then Raise (HTTPError FORBIDDEN None)
      else Return (_add_contributor_json <$>
             filter (fun contrib => contrib ∉ contributors node_to_use)
                    (contributors parent))
  end.

(** [get_recently_added_contributors]; [recently_added] is
    [auth.user.recently_added]. *)
Definition get_recently_added_contributors (node_to_use : Node)
    (recently_added : list User) (can_view : bool)
    : Result (list ContributorJson) :=
  if negb can_view then Raise (HTTPError FORBIDDEN None)
  else Return (_add_contributor_json <$>
         filter (fun contrib => contrib ∉ contributors node_to_use)
                recently_added).

End Views.

(** The node once [users] have been added to its contributors. *)
Definition add_contributors (node : Node) (users : list User) : Node :=
  {| node_id := node_id node; contributors := (contributors node ++ users)%list |}.

(** The element [_jsonify_contribs] returns for one contributor, if any. *)
Definition jsonified {Json} (site : Site Json) (contrib : ContribDict) : option Json :=
  match cd_id contrib with
  | Some id => serialize_user site <$> load site id
  | None => Some (serialize_unreg_user site contrib)
  end.

(** The line [_jsonify_contribs] logs for one contributor, if any. *)
Definition complaint {Json} (site : Site Json) (contrib : ContribDict) : option string :=
  match cd_id contrib with
  | Some id =>
      match load site id with
      | None => Some ("User " +:+ id +:+ " not found")
      | Some _ => None
      end
  | None => None
  end.

End ContributorViews.

(** ** [website/addons/onedrive]: choosing a folder from the settings page,
       and taking the authorization away *)

Module OnedriveLifecycle.

Import Framework Onedrive.

(** The ['selected'] entry of the request of [onedrive_set_config]. *)
Record Selected := { sel_id : string; sel_path : string }.

(** The ['result'] and the ['message'] of its response. *)
Record ConfigResponse (Urls : Type) := {
  cfg_name : string;
  cfg_path : string;
  cfg_urls : Urls;
  cfg_message : string
}.
Arguments cfg_name {Urls} _.
Arguments cfg_path {Urls} _.
Arguments cfg_urls {Urls} _.
Arguments cfg_message {Urls} _.

Section Operations.

Variable E : Env.

(** [views.py], [onedrive_remove_user_auth]: the body after the
    decorators. *)
Definition onedrive_remove_user_auth (auth : Auth) : M unit :=
  deauthorize E (Some auth) true;;
  save.

(** [model.py], [OnedriveNodeSettings.on_delete] *)
Definition on_delete : M unit :=
  deauthorize E None false;;
  clear_auth;;
  save.

(** The folder name [onedrive_set_config] reports for a path. *)
Definition reported_name (path : string) : string :=
  if bool_decide (path ≠ "All Files") then Py.replace "All Files" "" path
  else "/ (Full Onedrive)".

(** [views.py], [onedrive_set_config]: the body after the decorators, for
    a request that carries a selected folder.  [addon_serialized_urls] is
    the property of that name of the serializer, which holds the node
    settings and is read once the folder is set. *)
Definition onedrive_set_config {Urls : Type}
    (addon_serialized_urls : OnedriveNodeSettings -> Urls)
    (folder : Selected) (auth : Auth) : M (ConfigResponse Urls) :=
  let uid := sel_id folder in
  let path := sel_path folder in
  set_folder E uid (Some auth);;
  urls ← gets addon_serialized_urls;
  mret {| cfg_name := reported_name path;
          cfg_path := path;
          cfg_urls := urls;
          cfg_message := "Successfully updated settings." |}.

End Operations.

(** The memo, when filled, is what the stored name and path were taken
    from. *)
Definition memo_consistent (s : OnedriveNodeSettings) : Prop :=
  ∀ md, _folder_data s = Some md →
        folder_name s = Some (md_name md) ∧ folder_path s = Some (full_path md).

(** Two worlds differ at most in the credential, in what was persisted of
    it, and in the calls made to the provider. *)
Definition credential_only (w w1 : World) : Prop :=
  same_folder w w1
  ∧ owner (addon w1) = owner (addon w)
  ∧ user_settings (addon w1) = user_settings (addon w)
  ∧ saved_user_settings w1 = saved_user_settings w
  ∧ logs w1 = logs w.

End OnedriveLifecycle.

(** ** A user directory and a component used in the examples *)

Module DirectoryFixtures.

Import Framework ContributorViews.

Definition dave : User := {| _primary_key := "u4"; username := "dave@osf.io" |}.

(** The users "u1" and "u2" can be loaded; no other id can. *)
Definition site : Site string :=
  {| fullname := fun u => "Dr. " +:+ _primary_key u;
     is_registered := fun _ => true;
     is_active := fun u => bool_decide (u ≠ dave);
     gravatar := fun u use_ssl size =>
       (if use_ssl then "https" else "http") +:+ "://gravatar.test/" +:+ username u;
     GRAVATAR_SIZE_ADD_CONTRIBUTOR := 40;
     load := fun id =>
       if bool_decide (id = "u1") then Some Fixtures.alice
       else if bool_decide (id = "u2") then Some Fixtures.bob
       else None;
     serialize_user := fun u => username u;
     serialize_unreg_user := fun _ => "(not registered)" |}.

Definition parent_project : Node :=
  {| node_id := "n0";
     contributors := [Fixtures.alice; Fixtures.bob; Fixtures.carol; dave] |}.

(** A component of [parent_project] with two contributors. *)
Definition component : Node :=
  {| node_id := "n2"; contributors := [Fixtures.alice; Fixtures.carol] |}.

(** A contributor list with a dangling id and an unregistered entry. *)
Definition contributor_list : list ContribDict :=
  [{| cd_id := Some "u1"; cd_fields := [] |};
   {| cd_id := Some "gone"; cd_fields := [] |};
   {| cd_id := None; cd_fields := [("nr_name", "Eve"); ("nr_email", "eve@osf.io")] |};
   {| cd_id := Some "u2"; cd_fields := [] |}].

End DirectoryFixtures.

(** ** Occurrences of a substring *)

Module Occurrences.

(** [s.find(sub)]: the index of the leftmost occurrence of [sub] in [s];
    [None] stands for Python's [-1]. *)
Fixpoint find (sub s : string) : option nat :=
  if Py.startswith sub s then Some 0%nat
  else match s with
       | EmptyString => None
       | String _ s' => S <$> find sub s'
       end.

(** The wording of the specification, "every occurrence of [old]
    replaced by [new]", read as Python reads it: the occurrences are
    taken from the left, one after the other, each search starting where
    the occurrence before it ended; what lies between them is kept.
    [spec_replaced old new s v] says that [v] is [s] so rewritten. *)
Inductive spec_replaced (old new : string) : string → string → Prop :=
| spec_replaced_none (s : string) :
    find old s = None → spec_replaced old new s s
| spec_replaced_next (pre post v : string) :
    find old (pre +:+ old +:+ post) = Some (String.length pre) →
    spec_replaced old new post v →
    spec_replaced old new (pre +:+ old +:+ post) (pre +:+ new +:+ v).

End Occurrences.

(** ** Fixtures of the accessors *)

Module AccessorFixtures.

Import Framework Onedrive.

(** The root of the drive, as the provider describes it. *)
Definition all_files : FolderMetadata :=
  {| md_id := "0"; md_name := "All Files";
     path_collection := [];
     item_collection := [];
     is_deleted := false |}.

(** A node configured for the root of the drive, metadata already
    fetched. *)
Definition root_configured : OnedriveNodeSettings :=
  {| owner := Fixtures.project; user_settings := Some Fixtures.alice_settings;
     external_account := Some Fixtures.valid_account;
     folder_id := Some "0"; folder_name := Some "All Files";
     folder_path := Some "All Files";
     _folder_data := Some all_files |}.

(** The node of the scenario as it is loaded from the database:
    [_folder_data] is a class attribute, not a stored field, so the memo
    of a loaded instance is empty. *)
Definition reloaded : OnedriveNodeSettings :=
  with_folder_data None Fixtures.configured.

(** A provider that cannot be reached: the transport gives up retrying. *)
Definition unreachable_provider : Env :=
  {| now := 50;
     oauth_refresh := fun _ => inr Fixtures.renewed_account;
     client_get_folder := fun _ _ => inl RetryExhausted;
     api_url_for := Fixtures.url |}.

End AccessorFixtures.

(** * Properties *)

(** ** Contributor abbreviation *)

Section AbbreviateFacts.
Import Framework Contributor.

Variable users : list User.
Variable max_count : Z.

Let n : Z := Z.of_nat (length users).

Lemma min_last_considered (i : Z) :
  ((i =? Z.min n max_count - 1) && (max_count <? n))%Z
  = ((i =? max_count - 1) && (max_count <? n))%Z.
Proof.
  destruct (Z.ltb_spec max_count n) as [Hlt|Hge].
  - by rewrite Z.min_r by lia.
  - by rewrite !andb_false_r.
Qed.

Lemma loop_body_contributors acc iu :
  contributors (loop_body users max_count acc iu)
  = (contributors acc ++ [rule_entry n max_count iu])%list.
Proof.
  unfold loop_body, rule_entry, spec_separator. fold n.
  rewrite min_last_considered.
  destruct ((_ =? max_count - 1) && _)%Z; [done|].
  simpl. by repeat case_match.
Qed.

Lemma loop_contributors l acc :
  contributors (fold_left (loop_body users max_count) l acc)
  = (contributors acc ++ (rule_entry n max_count <$> l))%list.
Proof.
  revert acc. induction l as [|iu l IH]; intros acc; simpl.
  - by rewrite app_nil_r.
  - rewrite IH, loop_body_contributors, <- app_assoc. done.
Qed.

Lemma abbreviate_contributors :
  contributors (abbreviate users max_count)
  = imap (fun i u => rule_entry n max_count (i, u)) (Py.slice_to users max_count).
Proof.
  unfold abbreviate. rewrite loop_contributors. simpl.
  unfold Py.enumerate. by rewrite fmap_imap.
Qed.

Lemma loop_body_quiet acc iu :
  overflows users max_count iu = false →
  others_count (loop_body users max_count acc iu) = others_count acc
  ∧ others_suffix (loop_body users max_count acc iu) = others_suffix acc.
Proof. unfold overflows, loop_body. by intros ->. Qed.

Lemma loop_body_overflow acc iu :
  overflows users max_count iu = true →
  others_count (loop_body users max_count acc iu) = Some (n - 3)%Z
  ∧ others_suffix (loop_body users max_count acc iu)
    = if (1 <? n - 3)%Z then "s" else "".
Proof. unfold overflows, loop_body. by intros ->. Qed.

Lemma loop_quiet l acc :
  Forall (fun iu => overflows users max_count iu = false) l →
  others_count (fold_left (loop_body users max_count) l acc) = others_count acc
  ∧ others_suffix (fold_left (loop_body users max_count) l acc) = others_suffix acc.
Proof.
  intros Hl. revert acc. induction Hl as [|iu l Hq _ IH]; intros acc; [done|].
  simpl. destruct (IH (loop_body users max_count acc iu)) as [-> ->].
  by apply loop_body_quiet.
Qed.

Lemma length_slice_to :
  (0 ≤ max_count)%Z →
  Z.of_nat (length (Py.slice_to users max_count)) = Z.min n max_count.
Proof.
  intros Hmc. unfold Py.slice_to.
  destruct (Z.leb_spec 0 max_count); [|lia].
  rewrite length_take. subst n. lia.
Qed.

Lemma enumerate_quiet :
  (n ≤ max_count ∨ max_count = 0)%Z →
  Forall (fun iu => overflows users max_count iu = false)
         (Py.enumerate (Py.slice_to users max_count)).
Proof.
  intros Hcase. apply Forall_lookup. intros j [i u] Hin.
  apply list_lookup_imap_Some in Hin as (y & Hj & Heq).
  injection Heq as -> ->. unfold overflows. simpl. fold n.
  destruct Hcase as [Hle| ->].
  - destruct (Z.ltb_spec max_count n); [lia|]. by rewrite andb_false_r.
  - destruct (Z.eqb_spec (Z.of_nat j) (0 - 1)); [lia|done].
Qed.

Lemma enumerate_overflow :
  (1 ≤ max_count < n)%Z →
  ∃ l u, Py.enumerate (Py.slice_to users max_count)
         = (l ++ [(Z.to_nat (max_count - 1), u)])%list.
Proof.
  intros [H1 Hn]. unfold Py.slice_to, Py.enumerate.
  destruct (Z.leb_spec 0 max_count); [|lia].
  assert (Hlen : length (take (Z.to_nat max_count) users) = Z.to_nat max_count).
  { rewrite length_take. subst n. lia. }
  destruct (take (Z.to_nat max_count) users) as [|u0 l0 _] using rev_ind.
  { simpl in Hlen. lia. }
  rewrite length_app in Hlen. simpl in Hlen.
  rewrite imap_app. simpl. eexists _, u0. do 3 f_equal. lia.
Qed.

(** The part of the rule the code follows for every non-negative bound. *)
Lemma abbreviate_rule :
  (0 ≤ max_count)%Z →
  let r := abbreviate users max_count in
  Z.of_nat (length (contributors r)) = Z.min n max_count
  ∧ (∀ (i : nat) (u : User),
        users !! i = Some u → (Z.of_nat i < max_count)%Z →
        contributors r !! i
        = Some {| user_id := _primary_key u;
                  separator := spec_separator n max_count (Z.of_nat i) |})
  ∧ ((1 ≤ max_count < n)%Z →
        ∃ c, others_count r = Some c
             ∧ others_suffix r = if (1 <? c)%Z then "s" else "")
  ∧ ((n ≤ max_count ∨ max_count = 0)%Z →
        others_count r = None ∧ others_suffix r = "").
Proof.
  intros Hmc r. subst r. repeat split.
  - rewrite abbreviate_contributors, length_imap. by apply length_slice_to.
  - intros i u Hu Hi. rewrite abbreviate_contributors, list_lookup_imap.
    unfold Py.slice_to. destruct (Z.leb_spec 0 max_count); [|lia].
    rewrite lookup_take_lt by lia. by rewrite Hu.
  - intros Hover. destruct (enumerate_overflow Hover) as (l & u & Hl).
    unfold abbreviate. rewrite Hl, fold_left_app. simpl.
    edestruct loop_body_overflow as [-> ->]; [|by eexists].
    unfold overflows. simpl. fold n.
    rewrite Z2Nat.id by lia. rewrite Z.eqb_refl.
    by destruct (Z.ltb_spec max_count n); [|lia].
  - unfold abbreviate. by edestruct loop_quiet as [-> _]; [apply enumerate_quiet|].
  - unfold abbreviate. by edestruct loop_quiet as [_ ->]; [apply enumerate_quiet|].
Qed.
End AbbreviateFacts.

Section AbbreviateTable.
Import Framework Contributor.

(** The rows of the table for [max_count = 3], for any users. *)
Lemma abbreviate_three (users : list User) :
  let r := abbreviate users 3 in
  (length users = 1%nat → separators r = [""] ∧ others_count r = None)
  ∧ (length users = 2%nat → separators r = [" &"; ""] ∧ others_count r = None)
  ∧ (length users = 3%nat → separators r = [","; " &"; ""] ∧ others_count r = None)
  ∧ (length users = 4%nat →
       separators r = [","; ","; " &"]
       ∧ others_count r = Some 1%Z ∧ others_suffix r = "")
  ∧ (length users = 5%nat →
       separators r = [","; ","; " &"]
       ∧ others_count r = Some 2%Z ∧ others_suffix r = "s").
Proof.
  destruct users as [|u1 [|u2 [|u3 [|u4 [|u5 [|u6 rest]]]]]];
    intros r; subst r; repeat split; done.
Qed.

Lemma abbreviate_three_overflow (users : list User) :
  (3 < Z.of_nat (length users))%Z →
  others_count (abbreviate users 3) = Some (Z.of_nat (length users) - 3)%Z.
Proof.
  intros Hn.
  destruct (enumerate_overflow users 3) as (l & u & Hl); [lia|].
  unfold abbreviate. rewrite Hl, fold_left_app. simpl.
  edestruct (loop_body_overflow users 3) as [-> _]; [|done].
  unfold overflows. simpl.
  by destruct (Z.ltb_spec 3 (Z.of_nat (length users))); [|lia].
Qed.

(** C1 (as amended).  For every list of [n] users and every bound
    [max_count >= 0], the abbreviation returns exactly [min n max_count]
    entries; entry [i] carries the id of user [i] and the separator of
    the rule of section 4.4; when the list overflows the bound an
    overflow count is set and the suffix is ["s"] exactly when that count
    exceeds one, and otherwise both stay empty.  With [max_count = 3] the
    overflow count is [n - max_count], and lists of size 1 to 5 give
    [""], [" &"; ""], [","; " &"; ""], [","; ","; " &"] (one other) and
    [","; ","; " &"] (two others).  The view hands this abbreviation to a
    caller who can view the node. *)
Theorem abbreviate_follows_rule (users : list User) (max_count : Z) :
  (0 ≤ max_count)%Z →
  let n := Z.of_nat (length users) in
  let r := abbreviate users max_count in
  Z.of_nat (length (contributors r)) = Z.min n max_count
  ∧ (∀ (i : nat) (u : User),
        users !! i = Some u → (Z.of_nat i < max_count)%Z →
        contributors r !! i
        = Some {| user_id := _primary_key u;
                  separator := spec_separator n max_count (Z.of_nat i) |})
  ∧ ((1 ≤ max_count < n)%Z →
        ∃ c, others_count r = Some c
             ∧ others_suffix r = if (1 <? c)%Z then "s" else "")
  ∧ ((n ≤ max_count ∨ max_count = 0)%Z →
        others_count r = None ∧ others_suffix r = "")
  ∧ (max_count = 3%Z →
       ((3 < n)%Z → others_count r = Some (n - max_count)%Z)
       ∧ (length users = 1%nat → separators r = [""])
       ∧ (length users = 2%nat → separators r = [" &"; ""])
       ∧ (length users = 3%nat → separators r = [","; " &"; ""])
       ∧ (length users = 4%nat →
            separators r = [","; ","; " &"] ∧ others_count r = Some 1%Z)
       ∧ (length users = 5%nat →
            separators r = [","; ","; " &"] ∧ others_count r = Some 2%Z))
  ∧ get_node_contributors_abbrev users true (Some max_count) = Return r.
Proof.
  intros Hmc n r.
  destruct (abbreviate_rule users max_count Hmc) as (Hlen & Hrule & Hover & Hquiet).
  split; [exact Hlen|]. split; [exact Hrule|].
  split; [exact Hover|]. split; [exact Hquiet|].
  split; [|reflexivity].
  intros ->. subst r.
  destruct (abbreviate_three users) as (H1 & H2 & H3 & H4 & H5).
  split; [by apply abbreviate_three_overflow|].
  split; [intros Hl; by apply H1|].
  split; [intros Hl; by apply H2|].
  split; [intros Hl; by apply H3|].
  split; intros Hl; [destruct (H4 Hl) as (? & ? & _)|destruct (H5 Hl) as (? & ? & _)];
    by split.
Qed.

Lemma abbreviate_follows_rule_witness :
  (0 ≤ 2)%Z
  ∧ Z.of_nat (length (contributors
               (abbreviate (mk_users ["a"; "b"; "c"; "d"]) 2))) = 2%Z.
Proof.
  split; [lia|].
  exact (proj1 (abbreviate_follows_rule (mk_users ["a"; "b"; "c"; "d"]) 2
                  ltac:(lia))).
Defined.

(** Against C1 as stated: with [max_count = 3] no list of four or five
    users gets the separators [","; " &"; " &"] of the table, and a
    negative bound does not yield [min n max_count] entries. *)
Lemma abbreviate_table_counterexample :
  separators (abbreviate (mk_users ["a"; "b"; "c"; "d"]) 3) ≠ [","; " &"; " &"]
  ∧ separators (abbreviate (mk_users ["a"; "b"; "c"; "d"; "e"]) 3)
    ≠ [","; " &"; " &"]
  ∧ Z.of_nat (length (contributors (abbreviate (mk_users ["a"; "b"; "c"]) (-1))))
    ≠ Z.min 3 (-1).
Proof. repeat split; intros H; discriminate H. Qed.

(** The overflow count is computed from the constant 3, not from the
    bound: four users abbreviated to two leave "1 other". *)
Example abbreviate_overflow_constant :
  let r := abbreviate (mk_users ["a"; "b"; "c"; "d"]) 2 in
  others_count r = Some 1%Z ∧ others_suffix r = "".
Proof. split; reflexivity. Qed.

End AbbreviateTable.

(** ** Running operations *)

Section MonadFacts.
Import Framework Onedrive.

Lemma run_bind {A B} (m : M A) (f : A → M B) (w : World) :
  run (m ≫= f) w
  = match run m w with
    | (Return a, w') => run (f a) w'
    | (Raise e, w') => (Raise e, w')
    end.
Proof. reflexivity. Qed.

Lemma run_ret {A} (a : A) (w : World) : run (mret a) w = (Return a, w).
Proof. reflexivity. Qed.

Lemma run_raise {A} (e : exn) (w : World) : run (raise (A:=A) e) w = (Raise e, w).
Proof. reflexivity. Qed.

Lemma run_gets {A} (f : OnedriveNodeSettings → A) (w : World) :
  run (gets f) w = (Return (f (addon w)), w).
Proof. reflexivity. Qed.

Lemma run_try_client {A} (m : M A) (h : Z → string → M A) (w : World) :
  run (try_except_client m h) w
  = match run m w with
    | (Raise (OnedriveClientException status_code message), w') =>
        run (h status_code message) w'
    | r => r
    end.
Proof. reflexivity. Qed.

Lemma run_try_retry {A} (m h : M A) (w : World) :
  run (try_except_retry m h) w
  = match run m w with
    | (Raise MaxRetryError, w') => run h w'
    | r => r
    end.
Proof. reflexivity. Qed.

Variable E : Env.

(** The outcome of a call to the storage client: the call is recorded,
    nothing else changes. *)
Lemma run_get_folder (client fid : string) (w : World) :
  run (get_folder E client fid) w
  = (match client_get_folder E client fid with
     | inr md => Return md
     | inl e => Raise (remote_exn e)
     end,
     (run (call (CallGetFolder client fid)) w).2).
Proof.
  unfold get_folder. rewrite run_bind. simpl.
  by destruct (client_get_folder E client fid).
Qed.

(** The outcomes of the token refresh followed by the read of the key. *)
Lemma run_authenticated_client (w : World) :
  match external_account (addon w) with
  | None => run (authenticated_client E) w = (Raise AttributeError, w)
  | Some a =>
      if expired E a then
        match oauth_refresh E (refresh_token a) with
        | inl e => (run (authenticated_client E) w).1 = Raise (remote_exn e)
        | inr a' =>
            (run (authenticated_client E) w).1 = Return (oauth_key a')
            ∧ external_account (addon (run (authenticated_client E) w).2) = Some a'
        end
      else run (authenticated_client E) w = (Return (oauth_key a), w)
  end.
Proof.
  unfold authenticated_client, refresh_oauth_key, current_oauth_key.
  rewrite !run_bind, run_gets.
  destruct (external_account (addon w)) as [a|] eqn:Ha; [|done].
  destruct (expired E a) eqn:Hexp.
  - rewrite run_bind. simpl.
    destruct (oauth_refresh E (refresh_token a)); simpl; [done|].
    by split.
  - rewrite run_ret, run_bind, run_gets, Ha. done.
Qed.

(** Refreshing the token touches the credential only. *)
Lemma authenticated_client_same_folder (w : World) :
  same_folder w (run (authenticated_client E) w).2
  ∧ user_settings (addon (run (authenticated_client E) w).2) = user_settings (addon w)
  ∧ owner (addon (run (authenticated_client E) w).2) = owner (addon w).
Proof.
  unfold same_folder, authenticated_client, refresh_oauth_key, current_oauth_key.
  rewrite !run_bind, run_gets.
  destruct (external_account (addon w)) as [a|] eqn:Ha; [|done].
  destruct (expired E a) eqn:Hexp.
  - rewrite run_bind. simpl.
    by destruct (oauth_refresh E (refresh_token a)).
  - rewrite run_ret, run_bind, run_gets, Ha. done.
Qed.

Lemma get_folder_same_folder (client fid : string) (w : World) :
  same_folder w (run (get_folder E client fid) w).2
  ∧ addon (run (get_folder E client fid) w).2 = addon w.
Proof. rewrite run_get_folder. by unfold same_folder. Qed.

End MonadFacts.

(** ** The folder listing *)

Section FolderList.
Import Framework Onedrive.

Variable E : Env.

(** What is left of the listing once the node is known to have auth. *)
Lemma folder_list_authorized (fid : string) (w : World) :
  has_auth (addon w) = true →
  run (onedrive_folder_list E (Some fid)) w
  = run (client ← try_except_client (authenticated_client E)
                    (fun _ _ => raise (HTTPError FORBIDDEN None));
         metadata ← try_except_retry
                      (try_except_client (get_folder E client fid)
                         (fun _ _ => raise (HTTPError NOT_FOUND None)))
                      (raise (HTTPError BAD_REQUEST None));
         if is_deleted metadata then raise (HTTPError NOT_FOUND None)
         else mret (child_entry E (owner (addon w)) (full_path metadata) <$>
                      filter (fun item => item_type item = "folder")
                             (item_collection metadata))) w.
Proof.
  intros Hauth. unfold onedrive_folder_list.
  rewrite run_bind, run_gets, Hauth. reflexivity.
Qed.

(** The listing once the client is there. *)
Lemma folder_list_client (fid client : string) (w : World) :
  has_auth (addon w) = true →
  (run (authenticated_client E) w).1 = Return client →
  (run (onedrive_folder_list E (Some fid)) w).1
  = match client_get_folder E client fid with
    | inl RetryExhausted => Raise (HTTPError BAD_REQUEST None)
    | inl (ClientError _ _) => Raise (HTTPError NOT_FOUND None)
    | inr metadata =>
        if is_deleted metadata then Raise (HTTPError NOT_FOUND None)
        else Return (child_entry E (owner (addon w)) (full_path metadata) <$>
                       filter (fun item => item_type item = "folder")
                              (item_collection metadata))
    end.
Proof.
  intros Hauth Hclient. rewrite folder_list_authorized by done.
  rewrite run_bind, run_try_client.
  destruct (run (authenticated_client E) w) as [r w1]. simpl in Hclient.
  subst r. rewrite run_bind, run_try_retry, run_try_client, run_get_folder.
  destruct (client_get_folder E client fid) as [[sc msg|]|md]; try reflexivity.
  cbv iota beta. by destruct (is_deleted md).
Qed.

(** The listing of a fetched folder: one entry per folder item, in
    order, the other items dropped. *)
Lemma folder_list_children (fid client : string) (md : FolderMetadata) (w : World) :
  has_auth (addon w) = true →
  (run (authenticated_client E) w).1 = Return client →
  client_get_folder E client fid = inr md →
  is_deleted md = false →
  (run (onedrive_folder_list E (Some fid)) w).1
  = Return (child_entry E (owner (addon w)) (full_path md) <$>
              filter (fun item => item_type item = "folder") (item_collection md)).
Proof.
  intros Hauth Hclient Hmd Hdel.
  rewrite (folder_list_client fid client) by done. by rewrite Hmd, Hdel.
Qed.

(** C4 (as amended).  On a node that has auth, an absent [folderId]
    yields exactly one entry, the synthetic root: id ["0"], kind
    ["folder"], and a link to this very listing with [folderId=0].  The
    world is left as it was, so nothing was called, refreshed or saved,
    and the answer is the same whatever the refresh endpoint and the
    storage client would have said. *)
Theorem folder_list_root (w : World) :
  has_auth (addon w) = true →
  run (onedrive_folder_list E None) w = (Return [root_entry E (owner (addon w))], w)
  ∧ fe_id (root_entry E (owner (addon w))) = "0"
  ∧ fe_kind (root_entry E (owner (addon w))) = "folder"
  ∧ fe_urls_folders (root_entry E (owner (addon w)))
    = api_url_for E (owner (addon w)) "onedrive_folder_list" (ArgInt 0)
  ∧ ∀ E' : Env,
      api_url_for E' = api_url_for E →
      run (onedrive_folder_list E' None) w = run (onedrive_folder_list E None) w.
Proof.
  intros Hauth.
  assert (Hroot : ∀ E0, run (onedrive_folder_list E0 None) w
                        = (Return [root_entry E0 (owner (addon w))], w)).
  { intros E0. unfold onedrive_folder_list.
    rewrite run_bind, run_gets, Hauth. reflexivity. }
  split; [apply Hroot|]. repeat split.
  intros E' Hurl. rewrite !Hroot. unfold root_entry. by rewrite Hurl.
Qed.

(** C3 (as amended).  For every folder id, on a node that has auth: a
    client exception while the token is refreshed ends in
    [ForbiddenError]; once the client is there, a retry budget exhausted
    by the fetch ends in [TransientError], a client exception raised by
    the fetch itself ends in [NotFoundError], and so does a fetched
    record that is marked deleted. *)
Theorem folder_list_failures (fid : string) (w : World) :
  has_auth (addon w) = true →
  (∀ status_code message,
      (run (authenticated_client E) w).1
      = Raise (OnedriveClientException status_code message) →
      (run (onedrive_folder_list E (Some fid)) w).1 = Raise ForbiddenError)
  ∧ (∀ client,
      (run (authenticated_client E) w).1 = Return client →
      (client_get_folder E client fid = inl RetryExhausted →
         (run (onedrive_folder_list E (Some fid)) w).1 = Raise TransientError)
      ∧ (∀ status_code message,
           client_get_folder E client fid = inl (ClientError status_code message) →
           (run (onedrive_folder_list E (Some fid)) w).1 = Raise NotFoundError)
      ∧ (∀ md,
           client_get_folder E client fid = inr md → is_deleted md = true →
           (run (onedrive_folder_list E (Some fid)) w).1 = Raise NotFoundError)).
Proof.
  intros Hauth. split.
  - intros sc msg Hfail. rewrite folder_list_authorized by done.
    rewrite run_bind, run_try_client.
    destruct (run (authenticated_client E) w) as [r w1]. simpl in Hfail.
    subst r. reflexivity.
  - intros client Hclient.
    rewrite (folder_list_client fid client) by done.
    split; [by intros ->|]. split; [by intros sc msg ->|].
    by intros md -> ->.
Qed.

End FolderList.


(** ** Paths of the listed children *)

Section ChildPaths.
Import Framework Onedrive.

Lemma string_app_assoc (a b c : string) : (a +:+ b) +:+ c = a +:+ (b +:+ c).
Proof.
  induction a as [|x a IH]; [done|].
  change (String x ((a +:+ b) +:+ c) = String x (a +:+ (b +:+ c))).
  by rewrite IH.
Qed.

Lemma join_snoc (sep : string) (l : list string) (y : string) :
  l ≠ [] → Py.join sep (l ++ [y]) = Py.join sep l +:+ sep +:+ y.
Proof.
  induction l as [|x [|x2 l'] IH]; intros Hne; [done|done|].
  change (Py.join sep ((x :: x2 :: l') ++ [y]))
    with (x +:+ sep +:+ Py.join sep ((x2 :: l') ++ [y])).
  rewrite IH by done.
  change (Py.join sep (x :: x2 :: l')) with (x +:+ sep +:+ Py.join sep (x2 :: l')).
  by rewrite !string_app_assoc.
Qed.

Lemma posixpath_join_plain (a b : string) :
  a ≠ "" → Py.endswith_char "/" a = false → Py.startswith "/" b = false →
  Py.posixpath_join a b = a +:+ "/" +:+ b.
Proof.
  intros Ha Hend Hstart. unfold Py.posixpath_join.
  rewrite Hstart, Hend, bool_decide_eq_false_2 by done. done.
Qed.

(** Where the host join and the forward-slash join agree: the folder's
    path is not empty and does not end with a slash, and the item's name
    does not start with one. *)
Lemma child_path_plain (E : Env) (node : Node) (md : FolderMetadata) (item : Item) :
  full_path md ≠ "" →
  Py.endswith_char "/" (full_path md) = false →
  Py.startswith "/" (item_name item) = false →
  fe_path (child_entry E node (full_path md) item) = spec_child_path md item.
Proof.
  intros Hne Hend Hstart. simpl.
  rewrite posixpath_join_plain by done.
  unfold spec_child_path.
  change [md_name md; item_name item] with ([md_name md] ++ [item_name item])%list.
  rewrite app_assoc, join_snoc; [done|].
  by destruct (entry_name <$> path_collection md).
Qed.

(** The scenario of the specification: folder "123" lists its one
    sub-folder and drops the file. *)
Example folder_list_scenario :
  (run (onedrive_folder_list Fixtures.provider (Some "123"))
       (Fixtures.world_of Fixtures.linked)).1
  = Return [{| fe_addon := "onedrive"; fe_kind := "folder";
               fe_id := "1"; fe_name := "Q1";
               fe_path := "Documents/Reports/Q1";
               fe_urls_folders :=
                 "/api/v1/project/n1/onedrive_folder_list/?folderId=1" |}].
Proof. reflexivity. Qed.

(** C2.  The child path is built with the host's path join, not by
    joining with forward slashes.  On a POSIX host a child whose name
    starts with a slash gets that name alone as its path, where the
    forward-slash join gives "Documents/Reports//Q1"; a child of a folder
    with no ancestors and an empty name gets "Q1", where the
    forward-slash join gives "/Q1". *)
Theorem folder_list_child_path_host_join :
  (run (onedrive_folder_list Fixtures.provider (Some "124"))
       (Fixtures.world_of Fixtures.linked)).1
  = Return [{| fe_addon := "onedrive"; fe_kind := "folder";
               fe_id := "1"; fe_name := "/Q1"; fe_path := "/Q1";
               fe_urls_folders :=
                 "/api/v1/project/n1/onedrive_folder_list/?folderId=1" |}]
  ∧ spec_child_path Fixtures.slashed
      {| item_id := "1"; item_name := "/Q1"; item_type := "folder" |}
    = "Documents/Reports//Q1"
  ∧ (run (onedrive_folder_list Fixtures.provider (Some "125"))
         (Fixtures.world_of Fixtures.linked)).1
    = Return [{| fe_addon := "onedrive"; fe_kind := "folder";
                 fe_id := "1"; fe_name := "Q1"; fe_path := "Q1";
                 fe_urls_folders :=
                   "/api/v1/project/n1/onedrive_folder_list/?folderId=1" |}]
  ∧ spec_child_path Fixtures.nameless
      {| item_id := "1"; item_name := "Q1"; item_type := "folder" |}
    = "/Q1".
Proof. repeat split. Qed.

Lemma folder_list_root_witness :
  has_auth (addon (Fixtures.world_of Fixtures.linked)) = true
  ∧ run (onedrive_folder_list Fixtures.provider None)
        (Fixtures.world_of Fixtures.linked)
    = (Return [root_entry Fixtures.provider Fixtures.project],
       Fixtures.world_of Fixtures.linked).
Proof.
  split; [reflexivity|].
  exact (proj1 (folder_list_root Fixtures.provider
                  (Fixtures.world_of Fixtures.linked) eq_refl)).
Defined.

(** Against C4 as stated: on a node nobody has authorized an absent
    [folderId] is answered with HTTP 403, not with the root entry. *)
Lemma folder_list_root_counterexample :
  run (onedrive_folder_list Fixtures.provider None)
      (Fixtures.world_of Fixtures.unlinked)
  = (Raise ForbiddenError, Fixtures.world_of Fixtures.unlinked).
Proof. reflexivity. Qed.

Lemma folder_list_failures_witness :
  has_auth (addon (Fixtures.world_of Fixtures.linked)) = true
  ∧ (run (onedrive_folder_list Fixtures.provider (Some "666"))
         (Fixtures.world_of Fixtures.linked)).1
    = Raise NotFoundError.
Proof.
  split; [reflexivity|].
  exact (proj2 (proj2 (proj2 (folder_list_failures Fixtures.provider "666"
                                (Fixtures.world_of Fixtures.linked) eq_refl)
                        "key-1" eq_refl))
           Fixtures.trashed eq_refl eq_refl).
Defined.

(** Against C3 as stated: the fetch of a folder the account may not read
    fails with a client error of the provider (HTTP 403, "access
    denied"), and the listing answers [NotFoundError], not
    [ForbiddenError]. *)
Lemma folder_list_forbidden_counterexample :
  client_get_folder Fixtures.provider "key-1" "private"
  = inl (ClientError 403 "access denied")
  ∧ (run (onedrive_folder_list Fixtures.provider (Some "private"))
         (Fixtures.world_of Fixtures.linked)).1
    = Raise NotFoundError
  ∧ (run (onedrive_folder_list Fixtures.provider (Some "private"))
         (Fixtures.world_of Fixtures.linked)).1
    ≠ Raise ForbiddenError.
Proof. repeat split. intros H. discriminate H. Qed.

End ChildPaths.


(** ** The contributor e-mails *)

Section ShareEmails.
Import Framework Onedrive.

(** C9.  The e-mail listing answers HTTP 400 when no user settings are
    linked to the node and HTTP 403 when the caller is not the owner of
    the linked settings; for the owner it returns the usernames of the
    node's contributors other than the caller, in order.  It succeeds
    for nobody else. *)
Theorem share_emails_owner_only (auth : Auth) (node_addon : OnedriveNodeSettings) :
  (user_settings node_addon = None →
     onedrive_get_share_emails auth node_addon = Raise (HTTPError BAD_REQUEST None))
  ∧ (∀ us, user_settings node_addon = Some us → us_owner us ≠ user auth →
       onedrive_get_share_emails auth node_addon = Raise ForbiddenError)
  ∧ (∀ us, user_settings node_addon = Some us → us_owner us = user auth →
       onedrive_get_share_emails auth node_addon
       = Return (username <$> filter (fun contrib => contrib ≠ user auth)
                                     (contributors (owner node_addon))))
  ∧ (∀ emails, onedrive_get_share_emails auth node_addon = Return emails →
       (∃ us, user_settings node_addon = Some us ∧ us_owner us = user auth)
       ∧ ∀ email, email ∈ emails ↔
           ∃ contrib, contrib ∈ contributors (owner node_addon)
                      ∧ contrib ≠ user auth ∧ username contrib = email).
Proof.
  unfold onedrive_get_share_emails.
  split; [by intros ->|].
  split; [intros us -> Hne; by rewrite bool_decide_eq_true_2|].
  split; [intros us -> Heq; rewrite bool_decide_eq_false_2; [done|by intros []]|].
  intros emails Hok.
  destruct (user_settings node_addon) as [us|]; [|done].
  case_bool_decide as Hown; [done|].
  injection Hok as <-. split.
  - exists us. split; [done|]. by destruct (decide (us_owner us = user auth)).
  - intros email. rewrite list_elem_of_fmap. split.
    + intros (c & -> & Hc). apply list_elem_of_filter in Hc as [Hne Hin]. eauto.
    + intros (c & Hin & Hne & <-). exists c. split; [done|].
      by apply list_elem_of_filter.
Qed.

Lemma share_emails_owner_only_witness :
  user_settings Fixtures.linked = Some Fixtures.alice_settings
  ∧ us_owner Fixtures.alice_settings = Fixtures.alice
  ∧ onedrive_get_share_emails {| user := Fixtures.alice |} Fixtures.linked
    = Return ["bob@osf.io"; "carol@osf.io"].
Proof.
  split; [reflexivity|]. split; [reflexivity|].
  exact (proj1 (proj2 (proj2 (share_emails_owner_only
                                {| user := Fixtures.alice |} Fixtures.linked)))
           Fixtures.alice_settings eq_refl eq_refl).
Defined.

End ShareEmails.

(** ** The memo of the folder metadata *)

Section FolderData.
Import Framework Onedrive.

Variable E : Env.

(** Without a folder id there is nothing to refresh. *)
Lemma update_folder_data_unconfigured (w : World) :
  folder_id (addon w) = None →
  run (_update_folder_data E) w = (Return tt, w).
Proof.
  intros Hfid. unfold _update_folder_data. by rewrite run_bind, run_gets, Hfid.
Qed.

(** With the memo filled nothing is fetched and nothing changes. *)
Lemma update_folder_data_memoized (w : World) :
  is_Some (_folder_data (addon w)) →
  run (_update_folder_data E) w = (Return tt, w).
Proof.
  intros [md Hmd]. unfold _update_folder_data. rewrite run_bind, run_gets.
  destruct (folder_id (addon w)); [|done].
  by rewrite run_bind, run_gets, Hmd.
Qed.

(** The refresh proper, when the memo is empty. *)
Lemma update_folder_data_cold (w : World) (fid : string) :
  folder_id (addon w) = Some fid →
  _folder_data (addon w) = None →
  run (_update_folder_data E) w
  = run (fetched ← try_except_client (fetch_folder_data E fid)
                     (fun _ _ => mret None);
         match fetched with
         | None => mret tt
         | Some md =>
             modify (with_folder_name (Some (md_name md)));;
             modify (with_folder_path (Some (full_path md)));;
             save
         end) w.
Proof.
  intros Hfid Hmemo. unfold _update_folder_data.
  by rewrite run_bind, run_gets, Hfid, run_bind, run_gets, Hmemo.
Qed.

(** A fetch that raises leaves the linked folder as it was. *)
Lemma fetch_folder_data_raises (w w1 : World) (fid : string) (e : exn) :
  run (fetch_folder_data E fid) w = (Raise e, w1) → same_folder w w1.
Proof.
  unfold fetch_folder_data. rewrite run_bind.
  pose proof (authenticated_client_same_folder E w) as (Hsame & _).
  destruct (run (authenticated_client E) w) as [[client|e0] w0]; simpl in Hsame.
  - rewrite run_bind, run_get_folder.
    destruct (client_get_folder E client fid) as [err|md].
    + intros [= _ <-]. destruct Hsame as (? & ? & ? & ? & ?). by repeat split.
    + discriminate.
  - by intros [= _ <-].
Qed.

(** A fetch that returns has filled the memo with what it returns, and
    has left the rest of the linked folder as it was. *)
Lemma fetch_folder_data_returns (w w1 : World) (fid : string)
    (fetched : option FolderMetadata) :
  run (fetch_folder_data E fid) w = (Return fetched, w1) →
  is_Some fetched
  ∧ _folder_data (addon w1) = fetched
  ∧ folder_id (addon w1) = folder_id (addon w)
  ∧ saved w1 = saved w.
Proof.
  unfold fetch_folder_data. rewrite run_bind.
  pose proof (authenticated_client_same_folder E w) as (Hsame & _).
  destruct (run (authenticated_client E) w) as [[client|e0] w0]; simpl in Hsame;
    [|discriminate].
  rewrite run_bind, run_get_folder.
  destruct (client_get_folder E client fid) as [err|md]; [discriminate|].
  intros [= <- <-]. destruct Hsame as (? & ? & ? & ? & ?). by repeat split.
Qed.

(** C8.  When the memo is empty and the fetch of the folder's metadata
    raises a client exception of the provider, the refresh returns
    normally, and the folder id, the stored name and path, the (empty)
    memo and the persisted records are what they were. *)
Theorem update_folder_data_soft_fail (w w1 : World) (fid : string)
    (status_code : Z) (message : string) :
  folder_id (addon w) = Some fid →
  _folder_data (addon w) = None →
  run (fetch_folder_data E fid) w
  = (Raise (OnedriveClientException status_code message), w1) →
  run (_update_folder_data E) w = (Return tt, w1)
  ∧ folder_name (addon w1) = folder_name (addon w)
  ∧ folder_path (addon w1) = folder_path (addon w)
  ∧ folder_id (addon w1) = folder_id (addon w)
  ∧ _folder_data (addon w1) = None
  ∧ saved w1 = saved w.
Proof.
  intros Hfid Hmemo Hfetch.
  destruct (fetch_folder_data_raises w w1 fid _ Hfetch) as (Hi & Hn & Hp & Hm & Hs).
  split.
  - rewrite (update_folder_data_cold w fid) by done.
    by rewrite run_bind, run_try_client, Hfetch.
  - repeat split; try done. by rewrite Hm.
Qed.

(** A refresh that fetches stores the fetched name and the joined path. *)
Lemma update_folder_data_fetched (w w1 : World) (fid : string) (md : FolderMetadata) :
  folder_id (addon w) = Some fid →
  _folder_data (addon w) = None →
  run (fetch_folder_data E fid) w = (Return (Some md), w1) →
  (run (_update_folder_data E) w).1 = Return tt
  ∧ folder_name (addon (run (_update_folder_data E) w).2) = Some (md_name md)
  ∧ folder_path (addon (run (_update_folder_data E) w).2) = Some (full_path md)
  ∧ _folder_data (addon (run (_update_folder_data E) w).2) = Some md.
Proof.
  intros Hfid Hmemo Hfetch.
  pose proof (fetch_folder_data_returns w w1 fid _ Hfetch) as (_ & Hm & _).
  rewrite (update_folder_data_cold w fid) by done.
  rewrite run_bind, run_try_client, Hfetch. by repeat split.
Qed.

End FolderData.

Section FolderDataExamples.
Import Framework Onedrive.

Lemma update_folder_data_soft_fail_witness :
  folder_id (addon (Fixtures.world_of Fixtures.stale)) = Some "no-such-folder"
  ∧ _folder_data (addon (Fixtures.world_of Fixtures.stale)) = None
  ∧ run (_update_folder_data Fixtures.provider) (Fixtures.world_of Fixtures.stale)
    = (Return tt,
       (run (call (CallGetFolder "key-1" "no-such-folder"))
            (Fixtures.world_of Fixtures.stale)).2).
Proof.
  split; [reflexivity|]. split; [reflexivity|].
  exact (proj1 (update_folder_data_soft_fail Fixtures.provider
                  (Fixtures.world_of Fixtures.stale) _ "no-such-folder"
                  403 "access denied" eq_refl eq_refl eq_refl)).
Defined.

End FolderDataExamples.


(** ** Replacing a substring *)

Section Replace.

Lemma startswith_refl (p : string) : Py.startswith p p = true.
Proof. induction p as [|a p IH]; [done|]. simpl. by rewrite Ascii.eqb_refl. Qed.

(** A prefix of the result that avoids the first character of [new] was
    copied from the input, character by character. *)
Lemma startswith_replace (old new : string) (c0 : Ascii.ascii) (w s : string) :
  Py.lacks c0 w = true →
  Py.startswith w (Py.replace old (String c0 new) s) = true →
  Py.startswith w s = true.
Proof.
  unfold Py.replace. revert s.
  induction w as [|a w IH]; intros s Hlacks Hpre; [done|].
  simpl in Hlacks. apply andb_prop in Hlacks as [Ha Hw].
  destruct s as [|c s]; [done|].
  cbn [Py.replace_from] in Hpre.
  destruct (Py.startswith old (String c s)).
  - change (String c0 new +:+ ?x) with (String c0 (new +:+ x)) in Hpre.
    simpl in Hpre. by destruct (Ascii.eqb a c0).
  - simpl in Hpre. simpl.
    destruct (Ascii.eqb a c); [|done]. by apply IH.
Qed.

(** Replacing [old] never yields [old] itself, when the replacement
    starts with a character that [old] does not contain. *)
Lemma replace_not_old (old new : string) (c0 : Ascii.ascii) (s : string) :
  old ≠ "" →
  Py.lacks c0 old = true →
  Py.replace old (String c0 new) s ≠ old.
Proof.
  intros Hne Hlacks Heq.
  assert (Hpre : Py.startswith old s = true).
  { apply (startswith_replace old new c0); [done|].
    rewrite Heq. apply startswith_refl. }
  destruct old as [|o old]; [done|].
  destruct s as [|c s]; [done|].
  unfold Py.replace in Heq. cbn [Py.replace_from] in Heq.
  rewrite Hpre in Heq.
  change (String c0 new +:+ ?x) with (String c0 (new +:+ x)) in Heq.
  injection Heq as -> _.
  simpl in Hlacks. by rewrite Ascii.eqb_refl in Hlacks.
Qed.

Lemma startswith_app (p s : string) : Py.startswith p (p +:+ s) = true.
Proof.
  induction p as [|a p IH]; [done|].
  change (String a p +:+ s) with (String a (p +:+ s)).
  simpl. by rewrite Ascii.eqb_refl.
Qed.

(** Once a match is found the scan resumes after it. *)
Lemma replace_from_skip (old new p s : string) :
  Py.replace_from old new (String.length p) (p +:+ s)
  = Py.replace_from old new 0 s.
Proof.
  induction p as [|a p IH]; [done|].
  change (String a p +:+ s) with (String a (p +:+ s)). simpl. apply IH.
Qed.

Lemma replace_prefix (old new s : string) :
  old ≠ "" → Py.replace old new (old +:+ s) = new +:+ Py.replace old new s.
Proof.
  intros Hne. destruct old as [|c old]; [done|].
  unfold Py.replace.
  change (String c old +:+ s) with (String c (old +:+ s)).
  cbn [Py.replace_from].
  change (String c (old +:+ s)) with (String c old +:+ s).
  rewrite startswith_app.
  replace (String.length (String c old) - 1)%nat with (String.length old)
    by (simpl; lia).
  by rewrite replace_from_skip.
Qed.

(** A string without the first character of [old] is left as it is. *)
Lemma replace_lacks (c0 : Ascii.ascii) (old new s : string) :
  Py.lacks c0 s = true → Py.replace (String c0 old) new s = s.
Proof.
  unfold Py.replace. induction s as [|c s IH]; [done|].
  simpl. intros Hl. apply andb_prop in Hl as [Hc Hs].
  rewrite Ascii.eqb_sym. apply negb_true_iff in Hc. rewrite Hc.
  by rewrite IH.
Qed.

Lemma startswith_inv (p s : string) :
  Py.startswith p s = true → ∃ t, s = p +:+ t.
Proof.
  revert s. induction p as [|a p IH]; intros s Hpre; [by exists s|].
  destruct s as [|b s]; [done|]. simpl in Hpre.
  destruct (Ascii.eqb_spec a b) as [->|]; [|done].
  destruct (IH s Hpre) as [t ->]. by exists t.
Qed.

(** Where [old] does not occur, nothing is replaced. *)
Lemma replace_find_none (old new s : string) :
  Occurrences.find old s = None → Py.replace old new s = s.
Proof.
  unfold Py.replace. induction s as [|c s IH]; [done|].
  cbn [Occurrences.find Py.replace_from].
  destruct (Py.startswith old (String c s)); [done|].
  destruct (Occurrences.find old s); [done|]. intros _. by rewrite IH.
Qed.

(** What precedes the leftmost occurrence is copied. *)
Lemma replace_find_some (old new pre rest : string) :
  Occurrences.find old (pre +:+ rest) = Some (String.length pre) →
  Py.replace old new (pre +:+ rest) = pre +:+ Py.replace old new rest.
Proof.
  unfold Py.replace. induction pre as [|c pre IH]; [done|].
  change (String c pre +:+ ?x) with (String c (pre +:+ x)).
  cbn [Occurrences.find Py.replace_from String.length].
  destruct (Py.startswith old (String c (pre +:+ rest))); [done|].
  destruct (Occurrences.find old (pre +:+ rest)) as [i|] eqn:Hfind; [|done].
  intros [= ->]. by rewrite IH.
Qed.

(** The leftmost occurrence splits the string. *)
Lemma find_some_split (old s : string) (i : nat) :
  Occurrences.find old s = Some i →
  ∃ pre post, s = pre +:+ old +:+ post ∧ String.length pre = i.
Proof.
  revert i. induction s as [|c s IH]; intros i.
  - cbn [Occurrences.find].
    destruct (Py.startswith old "") eqn:Hpre; [|done]. intros [= <-].
    destruct (startswith_inv _ _ Hpre) as [t Ht]. by exists "", t.
  - cbn [Occurrences.find].
    destruct (Py.startswith old (String c s)) eqn:Hpre.
    + intros [= <-]. destruct (startswith_inv _ _ Hpre) as [t Ht].
      by exists "", t.
    + destruct (Occurrences.find old s) as [j|]; [|done]. intros [= <-].
      destruct (IH j eq_refl) as (pre & post & -> & <-).
      by exists (String c pre), post.
Qed.

Lemma length_app (s t : string) :
  String.length (s +:+ t) = (String.length s + String.length t)%nat.
Proof.
  induction s as [|a s IH]; [done|].
  change (String a s +:+ t) with (String a (s +:+ t)). simpl. by rewrite IH.
Qed.

(** The function of the model meets the wording of the specification. *)
Lemma replace_spec_replaced (old new s : string) :
  old ≠ "" → Occurrences.spec_replaced old new s (Py.replace old new s).
Proof.
  intros Hne.
  remember (String.length s) as n eqn:Hn. revert s Hn.
  induction (lt_wf n) as [n _ IH]. intros s ->.
  destruct (Occurrences.find old s) as [i|] eqn:Hfind.
  - destruct (find_some_split _ _ _ Hfind) as (pre & post & -> & <-).
    rewrite (replace_find_some old new pre (old +:+ post) Hfind).
    rewrite replace_prefix by done.
    apply Occurrences.spec_replaced_next; [done|].
    apply (IH (String.length post)); [|done].
    rewrite !length_app. destruct old; [done|]. simpl. lia.
  - rewrite replace_find_none by done.
    by apply Occurrences.spec_replaced_none.
Qed.

(** And nothing else does. *)
Lemma spec_replaced_replace (old new s v : string) :
  old ≠ "" → Occurrences.spec_replaced old new s v → v = Py.replace old new s.
Proof.
  intros Hne. induction 1 as [s Hfind|pre post v Hfind _ IH].
  - by rewrite replace_find_none.
  - rewrite (replace_find_some old new pre (old +:+ post) Hfind).
    by rewrite replace_prefix, IH.
Qed.

(** No occurrence starts inside a string that lacks the first character
    of [old]. *)
Lemma find_after_lacking (c0 : Ascii.ascii) (old new t : string) :
  Py.lacks c0 new = true →
  Occurrences.find (String c0 old) t = None →
  Occurrences.find (String c0 old) (new +:+ t) = None.
Proof.
  intros Hlacks Ht. induction new as [|a new IH]; [done|].
  change (String a new +:+ t) with (String a (new +:+ t)).
  simpl in Hlacks. apply andb_prop in Hlacks as [Ha Hnew].
  apply negb_true_iff in Ha. rewrite Ascii.eqb_sym in Ha.
  cbn [Occurrences.find Py.startswith]. rewrite Ha. by rewrite IH.
Qed.

(** No occurrence of [old] is left in the result, when neither string
    contains the first character of the other. *)
Lemma find_replace_none (c0 d : Ascii.ascii) (old new s : string) :
  Py.lacks c0 (String d new) = true →
  Py.lacks d (String c0 old) = true →
  Occurrences.find (String c0 old) (Py.replace (String c0 old) (String d new) s)
  = None.
Proof.
  intros Hnew Hold. unfold Py.replace.
  assert (Hskip : ∀ k,
    Occurrences.find (String c0 old)
      (Py.replace_from (String c0 old) (String d new) k s) = None);
    [|apply Hskip].
  induction s as [|c s IH]; intros k; [done|].
  cbn [Py.replace_from]. destruct k as [|k]; [|apply IH].
  destruct (Py.startswith (String c0 old) (String c s)) eqn:Hpre.
  - by apply find_after_lacking.
  - cbn [Occurrences.find]. rewrite IH.
    destruct (Py.startswith (String c0 old)
                (String c (Py.replace_from (String c0 old) (String d new) 0 s)))
      eqn:Hcopy; [|done].
    exfalso. simpl in Hpre, Hcopy.
    destruct (Ascii.eqb c0 c); [|done].
    simpl in Hold. apply andb_prop in Hold as [_ Hold].
    by rewrite (startswith_replace (String c0 old) new d old s Hold Hcopy) in Hpre.
Qed.

End Replace.

(** ** The accessors of the linked folder *)

Section Accessors.
Import Framework Onedrive.

Variable E : Env.

(** Both accessors start with the refresh and read a stored field. *)
Lemma accessors_after_refresh (w w' : World) :
  run (_update_folder_data E) w = (Return tt, w') →
  run (fetch_folder_name E) w
  = (match folder_name (addon w') with
     | Some name => Return (Py.replace "All Files" "/ (Full Onedrive)" name)
     | None => Raise AttributeError
     end, w')
  ∧ run (fetch_full_folder_path E) w = (Return (folder_path (addon w')), w').
Proof.
  intros Hupd. unfold fetch_folder_name, fetch_full_folder_path.
  rewrite !run_bind, Hupd, run_bind, !run_gets.
  by destruct (folder_name (addon w')).
Qed.

(** C10.  [fetch_folder_name] never returns the literal "All Files".
    Whatever it returns holds no occurrence of "All Files" at all, and is
    the stored name, as the refresh it starts with left it, with every
    occurrence of "All Files" replaced by "/ (Full Onedrive)".  It does
    return whenever that refresh returns and a name is stored: the
    result is then the one string the wording allows ("/ (Full
    Onedrive)" for the name "All Files", the name itself when "All
    Files" does not occur in it), and [fetch_full_folder_path] returns
    the stored path as it is.  On an instance whose memo is filled, or
    whose folder id is unset, the refresh returns at once and changes
    nothing.  It does not return on every configured instance: without a
    stored name it raises [AttributeError], and with an empty memo
    whatever the fetch raises, a client exception of the provider apart,
    leaves both accessors. *)
Theorem fetch_folder_name_replaces (w : World) :
  (∀ v w', run (fetch_folder_name E) w = (Return v, w') →
     v ≠ "All Files"
     ∧ Occurrences.find "All Files" v = None
     ∧ run (_update_folder_data E) w = (Return tt, w')
     ∧ ∃ name, folder_name (addon w') = Some name
               ∧ Occurrences.spec_replaced "All Files" "/ (Full Onedrive)" name v)
  ∧ (∀ w' name,
       run (_update_folder_data E) w = (Return tt, w') →
       folder_name (addon w') = Some name →
       (∃ v, run (fetch_folder_name E) w = (Return v, w')
             ∧ Occurrences.spec_replaced "All Files" "/ (Full Onedrive)" name v
             ∧ (∀ v', Occurrences.spec_replaced "All Files" "/ (Full Onedrive)"
                        name v' → v' = v)
             ∧ (name = "All Files" → v = "/ (Full Onedrive)")
             ∧ (Occurrences.find "All Files" name = None → v = name))
       ∧ run (fetch_full_folder_path E) w = (Return (folder_path (addon w')), w'))
  ∧ (is_Some (_folder_data (addon w)) ∨ folder_id (addon w) = None →
       run (_update_folder_data E) w = (Return tt, w))
  ∧ (∀ w',
       run (_update_folder_data E) w = (Return tt, w') →
       folder_name (addon w') = None →
       run (fetch_folder_name E) w = (Raise AttributeError, w'))
  ∧ (∀ fid e w',
       folder_id (addon w) = Some fid →
       _folder_data (addon w) = None →
       run (fetch_folder_data E fid) w = (Raise e, w') →
       (∀ status_code message, e ≠ OnedriveClientException status_code message) →
       run (fetch_folder_name E) w = (Raise e, w')
       ∧ run (fetch_full_folder_path E) w = (Raise e, w')).
Proof.
  split; [|split; [|split; [|split]]].
  - intros v w' Hrun.
    destruct (run (_update_folder_data E) w) as [[[]|e] w1] eqn:Hupd.
    2:{ unfold fetch_folder_name in Hrun.
        rewrite run_bind, Hupd in Hrun. discriminate Hrun. }
    destruct (accessors_after_refresh w w1 Hupd) as [Hname _].
    rewrite Hname in Hrun.
    destruct (folder_name (addon w1)) as [name|] eqn:Hstored; [|discriminate].
    injection Hrun as <- <-.
    split; [by apply replace_not_old|]. split; [by apply find_replace_none|].
    split; [done|]. exists name. split; [done|].
    by apply replace_spec_replaced.
  - intros w' name Hupd Hstored.
    destruct (accessors_after_refresh w w' Hupd) as [Hname Hpath].
    rewrite Hstored in Hname. split; [|exact Hpath].
    exists (Py.replace "All Files" "/ (Full Onedrive)" name).
    split; [exact Hname|]. split; [by apply replace_spec_replaced|].
    split; [intros v'; by apply spec_replaced_replace|].
    split; [by intros ->|]. apply replace_find_none.
  - intros [Hmemo|Hfid].
    + by apply update_folder_data_memoized.
    + by apply update_folder_data_unconfigured.
  - intros w' Hupd Hstored.
    destruct (accessors_after_refresh w w' Hupd) as [Hname Hpath].
    by rewrite Hstored in Hname.
  - intros fid e w' Hfid Hmemo Hfetch Hother.
    assert (Hupd : run (_update_folder_data E) w = (Raise e, w')).
    { rewrite (update_folder_data_cold E w fid) by done.
      rewrite run_bind, run_try_client, Hfetch.
      destruct e as [| |status_code message| |]; try done.
      by destruct (Hother status_code message). }
    unfold fetch_folder_name, fetch_full_folder_path.
    by rewrite !run_bind, Hupd.
Qed.

End Accessors.

Section AccessorExamples.
Import Framework Onedrive.

Lemma fetch_folder_name_replaces_witness :
  run (_update_folder_data Fixtures.provider)
      (Fixtures.world_of AccessorFixtures.root_configured)
  = (Return tt, Fixtures.world_of AccessorFixtures.root_configured)
  ∧ folder_name (addon (Fixtures.world_of AccessorFixtures.root_configured))
    = Some "All Files"
  ∧ ∃ v, run (fetch_folder_name Fixtures.provider)
             (Fixtures.world_of AccessorFixtures.root_configured)
         = (Return v, Fixtures.world_of AccessorFixtures.root_configured)
         ∧ v = "/ (Full Onedrive)".
Proof.
  split; [reflexivity|]. split; [reflexivity|].
  destruct (proj1 (proj1 (proj2 (fetch_folder_name_replaces Fixtures.provider
                                   (Fixtures.world_of AccessorFixtures.root_configured)))
                     (Fixtures.world_of AccessorFixtures.root_configured) "All Files"
                     eq_refl eq_refl))
    as (v & Hrun & _ & _ & Hroot & _).
  exists v. split; [exact Hrun|exact (Hroot eq_refl)].
Defined.

(** Against C10 as stated: the configured node of the scenario, loaded
    from the database while the provider cannot be reached, has a stored
    name, and [fetch_folder_name] raises [MaxRetryError] instead of
    returning it; [_update_folder_data] catches the client's exception
    only.  And on a node whose folder was chosen while the provider
    refused to describe it no name is stored, and [fetch_folder_name]
    raises [AttributeError]. *)
Lemma fetch_folder_name_counterexample :
  folder_id AccessorFixtures.reloaded = Some "123"
  ∧ folder_name AccessorFixtures.reloaded = Some "Reports"
  ∧ (run (fetch_folder_name AccessorFixtures.unreachable_provider)
         (Fixtures.world_of AccessorFixtures.reloaded)).1
    = Raise MaxRetryError
  ∧ (run (set_folder Fixtures.provider "private"
                     (Some {| user := Fixtures.alice |}))
         (Fixtures.world_of Fixtures.linked)).1
    = Return tt
  ∧ folder_id
      (addon (run (set_folder Fixtures.provider "private"
                              (Some {| user := Fixtures.alice |}))
                  (Fixtures.world_of Fixtures.linked)).2)
    = Some "private"
  ∧ (run (fetch_folder_name Fixtures.provider)
         (run (set_folder Fixtures.provider "private"
                          (Some {| user := Fixtures.alice |}))
              (Fixtures.world_of Fixtures.linked)).2).1
    = Raise AttributeError.
Proof. repeat split. Qed.

(** The display name of the root folder, alone and inside a longer
    name. *)
Example fetch_folder_name_root :
  Py.replace "All Files" "/ (Full Onedrive)" "All Files" = "/ (Full Onedrive)"
  ∧ Py.replace "All Files" "/ (Full Onedrive)" "All Files/All Files"
    = "/ (Full Onedrive)// (Full Onedrive)".
Proof. split; reflexivity. Qed.

End AccessorExamples.

(** ** What is handed to the file server *)

Section Serialize.
Import Framework Onedrive.

Variable E : Env.

(** The outcome of the credential serialization, case by case. *)
Lemma serialize_credentials_result (w : World) :
  (run (serialize_waterbutler_credentials E) w).1
  = if has_auth (addon w) then
      match external_account (addon w) with
      | None => Raise AttributeError
      | Some a =>
          if expired E a then
            match oauth_refresh E (refresh_token a) with
            | inl (ClientError status_code message) =>
                Raise (HTTPError status_code (Some message))
            | inl RetryExhausted => Raise MaxRetryError
            | inr a' => Return {| token := oauth_key a' |}
            end
          else Return {| token := oauth_key a |}
      end
    else Raise (AddonError "Addon is not authorized").
Proof.
  unfold serialize_waterbutler_credentials. rewrite run_bind, run_gets.
  destruct (has_auth (addon w)); [|done]. simpl negb. cbv iota.
  rewrite run_try_client, run_bind.
  pose proof (run_authenticated_client E w) as Hclient.
  destruct (external_account (addon w)) as [a|]; [|by rewrite Hclient].
  destruct (expired E a); [|by rewrite Hclient].
  destruct (run (authenticated_client E) w) as [r w1]. simpl in Hclient.
  destruct (oauth_refresh E (refresh_token a)) as [[sc msg|]|a'].
  - by subst r.
  - by subst r.
  - destruct Hclient as [-> _]. done.
Qed.

(** The credential the serialization leaves linked. *)
Lemma serialize_credentials_account (w : World) (a a' : ExternalAccount) :
  has_auth (addon w) = true →
  external_account (addon w) = Some a →
  expired E a = true →
  oauth_refresh E (refresh_token a) = inr a' →
  external_account (addon (run (serialize_waterbutler_credentials E) w).2) = Some a'.
Proof.
  intros Hauth Ha Hexp Hnew.
  unfold serialize_waterbutler_credentials. rewrite run_bind, run_gets, Hauth.
  simpl negb. cbv iota. rewrite run_try_client, run_bind.
  pose proof (run_authenticated_client E w) as Hclient.
  rewrite Ha, Hexp, Hnew in Hclient.
  destruct (run (authenticated_client E) w) as [r w1]. simpl in Hclient.
  by destruct Hclient as [-> ?].
Qed.

(** C7 (as amended).  [serialize_waterbutler_credentials] fails with
    [AddonError] exactly when the node has no auth.  Otherwise, with a
    linked credential: an unexpired token is returned as it is, nothing
    changes; an expired one is exchanged at the refresh endpoint, and the
    new token is returned and linked, which is fresh whenever the
    endpoint issued an unexpired credential; when the endpoint answers
    with a client error, the call fails with an [HTTPError] that carries
    the status code and the message of that error.
    [serialize_waterbutler_settings] fails with [AddonError] exactly when
    no folder id is set, and otherwise returns that folder id. *)
Theorem serialize_credentials_and_settings (w : World) :
  (has_auth (addon w) = false →
     run (serialize_waterbutler_credentials E) w
     = (Raise (AddonError "Addon is not authorized"), w))
  ∧ (∀ msg, (run (serialize_waterbutler_credentials E) w).1 = Raise (AddonError msg) →
       has_auth (addon w) = false)
  ∧ (∀ a, has_auth (addon w) = true → external_account (addon w) = Some a →
       (expired E a = false →
          run (serialize_waterbutler_credentials E) w
          = (Return {| token := oauth_key a |}, w)
          ∧ fresh_token E w (oauth_key a))
       ∧ (expired E a = true →
            (∀ a', oauth_refresh E (refresh_token a) = inr a' →
               (run (serialize_waterbutler_credentials E) w).1
               = Return {| token := oauth_key a' |}
               ∧ (expired E a' = false →
                    fresh_token E (run (serialize_waterbutler_credentials E) w).2
                                (oauth_key a')))
            ∧ (∀ status_code message,
                 oauth_refresh E (refresh_token a)
                 = inl (ClientError status_code message) →
                 (run (serialize_waterbutler_credentials E) w).1
                 = Raise (HTTPError status_code (Some message)))))
  ∧ (folder_id (addon w) = None →
       run (serialize_waterbutler_settings) w
       = (Raise (AddonError "Folder is not configured"), w))
  ∧ (∀ fid, folder_id (addon w) = Some fid →
       run (serialize_waterbutler_settings) w = (Return {| folder := fid |}, w))
  ∧ (∀ msg, (run (serialize_waterbutler_settings) w).1 = Raise (AddonError msg) →
       folder_id (addon w) = None).
Proof.
  split; [|split; [|split; [|split; [|split]]]].
  - intros Hauth. unfold serialize_waterbutler_credentials.
    by rewrite run_bind, run_gets, Hauth.
  - intros msg. rewrite serialize_credentials_result.
    destruct (has_auth (addon w)); [|done].
    destruct (external_account (addon w)) as [a|]; [|done].
    destruct (expired E a); [|done].
    by destruct (oauth_refresh E (refresh_token a)) as [[]|].
  - intros a Hauth Ha. split; [|intros Hexp; split].
    + intros Hexp. split; [|by exists a].
      unfold serialize_waterbutler_credentials.
      rewrite run_bind, run_gets, Hauth. simpl negb. cbv iota.
      rewrite run_try_client, run_bind.
      pose proof (run_authenticated_client E w) as Hclient.
      rewrite Ha, Hexp in Hclient. by rewrite Hclient.
    + intros a' Hnew. split.
      * by rewrite serialize_credentials_result, Hauth, Ha, Hexp, Hnew.
      * intros Hfresh. exists a'. split; [|done].
        by apply (serialize_credentials_account w a a').
    + intros sc msg Hfail.
      by rewrite serialize_credentials_result, Hauth, Ha, Hexp, Hfail.
  - intros Hfid. unfold serialize_waterbutler_settings.
    by rewrite run_bind, run_gets, Hfid.
  - intros fid Hfid. unfold serialize_waterbutler_settings.
    by rewrite run_bind, run_gets, Hfid.
  - intros msg. unfold serialize_waterbutler_settings.
    rewrite run_bind, run_gets. by destruct (folder_id (addon w)).
Qed.

End Serialize.

Section SerializeExamples.
Import Framework Onedrive.

(** An expired token is renewed before it is handed out. *)
Lemma serialize_credentials_and_settings_witness :
  has_auth (addon (Fixtures.world_of Fixtures.linked_expired)) = true
  ∧ expired Fixtures.provider Fixtures.expired_account = true
  ∧ (run (serialize_waterbutler_credentials Fixtures.provider)
         (Fixtures.world_of Fixtures.linked_expired)).1
    = Return {| token := "key-2" |}.
Proof.
  split; [reflexivity|]. split; [reflexivity|].
  exact (proj1 (proj1 (proj2 (proj1 (proj2 (proj2
           (serialize_credentials_and_settings Fixtures.provider
              (Fixtures.world_of Fixtures.linked_expired))))
           Fixtures.expired_account eq_refl eq_refl) eq_refl)
           Fixtures.renewed_account eq_refl)).
Defined.

(** Against C7 as stated: a credential is linked, the stored token has
    expired and the refresh endpoint rejects the refresh token; the call
    does not return a token, it fails with HTTP 401. *)
Lemma serialize_credentials_counterexample :
  has_auth (addon (Fixtures.world_of Fixtures.linked_expired)) = true
  ∧ (run (serialize_waterbutler_credentials Fixtures.rejecting_provider)
         (Fixtures.world_of Fixtures.linked_expired)).1
    = Raise (HTTPError 401 (Some "invalid refresh token"))
  ∧ ∀ c, (run (serialize_waterbutler_credentials Fixtures.rejecting_provider)
              (Fixtures.world_of Fixtures.linked_expired)).1
         ≠ Return c.
Proof. repeat split. intros c H. discriminate H. Qed.

End SerializeExamples.


(** ** Choosing and dropping the folder *)

Section LinkedFolder.
Import Framework Onedrive.

Variable E : Env.

(** What [set_folder] does after the refresh: it only persists, grants
    and logs, so the linked folder and the remote calls stay as the
    refresh left them. *)
Lemma set_folder_tail (auth : option Auth) (w : World) :
  let r := run (save;;
                done ← gets complete;
                (if negb done then
                   us ← gets user_settings;
                   match us with
                   | None => raise AttributeError
                   | Some us =>
                       node ← gets owner;
                       fid ← gets folder_id;
                       let us' := grant_oauth_access us node fid in
                       modify (with_user_settings (Some us'));;
                       save_user_settings us'
                   end
                 else mret tt);;
                log "folder_selected" None auth) w in
  folder_id (addon r.2) = folder_id (addon w)
  ∧ folder_name (addon r.2) = folder_name (addon w)
  ∧ folder_path (addon r.2) = folder_path (addon w)
  ∧ _folder_data (addon r.2) = _folder_data (addon w)
  ∧ remote_calls r.2 = remote_calls w.
Proof.
  rewrite run_bind. cbn [run save]. rewrite run_bind, run_gets, run_bind.
  cbn [addon]. destruct (complete (addon w)); [done|].
  simpl negb. cbv iota. rewrite run_bind, run_gets. cbn [addon].
  by destruct (user_settings (addon w)).
Qed.

(** With the memo filled, [set_folder] records the new folder id and
    fetches nothing: the stored name and path stay what they were. *)
Lemma set_folder_memoized (new_id : string) (auth : option Auth) (w : World) :
  is_Some (_folder_data (addon w)) →
  let r := run (set_folder E new_id auth) w in
  folder_id (addon r.2) = Some new_id
  ∧ folder_name (addon r.2) = folder_name (addon w)
  ∧ folder_path (addon r.2) = folder_path (addon w)
  ∧ remote_calls r.2 = remote_calls w.
Proof.
  intros Hmemo r. subst r. unfold set_folder.
  rewrite run_bind. cbn [run modify]. rewrite run_bind.
  rewrite update_folder_data_memoized by done. cbv beta iota.
  match goal with
  | |- context [run _ ?w0] => pose proof (set_folder_tail auth w0) as Htail
  end.
  cbv zeta in Htail. destruct Htail as (Hi & Hn & Hp & _ & Hc).
  rewrite Hi, Hn, Hp, Hc. done.
Qed.

(** With the memo empty and the provider answering, [set_folder] leaves
    the name and the path of the folder it was given. *)
Lemma set_folder_fetched (new_id : string) (auth : option Auth) (w w1 : World)
    (md : FolderMetadata) :
  _folder_data (addon w) = None →
  run (fetch_folder_data E new_id) (run (modify (with_folder_id (Some new_id))) w).2
  = (Return (Some md), w1) →
  let r := run (set_folder E new_id auth) w in
  folder_id (addon r.2) = Some new_id
  ∧ folder_name (addon r.2) = Some (md_name md)
  ∧ folder_path (addon r.2) = Some (full_path md).
Proof.
  intros Hmemo Hfetch r. subst r. unfold set_folder.
  rewrite run_bind.
  set (w0 := (run (modify (with_folder_id (Some new_id))) w).2) in *.
  change (run (modify (with_folder_id (Some new_id))) w) with (Return tt, w0).
  cbv beta iota. rewrite run_bind.
  pose proof (update_folder_data_cold E w0 new_id eq_refl Hmemo) as Hcold.
  rewrite run_bind, run_try_client, Hfetch in Hcold.
  pose proof (fetch_folder_data_returns E _ _ _ _ Hfetch) as (_ & _ & Hid & _).
  rewrite Hcold. cbv beta iota.
  match goal with
  | |- context [run ?m w1] =>
      set (w2 := (run m w1).2); change (run m w1) with (Return tt, w2)
  end.
  cbv beta iota.
  pose proof (set_folder_tail auth w2) as Htail.
  cbv zeta in Htail. destruct Htail as (Hi' & Hn' & Hp' & _).
  rewrite Hi', Hn', Hp'. subst w2. simpl. by rewrite Hid.
Qed.

(** [deauthorize] returns, clears the folder id and both references, and
    leaves the stored name and path, the memo, the remote calls and the
    persisted credentials as they were. *)
Lemma deauthorize_clears (auth : option Auth) (add_log : bool) (w : World) :
  let r := run (deauthorize E auth add_log) w in
  r.1 = Return tt
  ∧ folder_id (addon r.2) = None
  ∧ user_settings (addon r.2) = None
  ∧ external_account (addon r.2) = None
  ∧ folder_name (addon r.2) = folder_name (addon w)
  ∧ folder_path (addon r.2) = folder_path (addon w)
  ∧ _folder_data (addon r.2) = _folder_data (addon w)
  ∧ remote_calls r.2 = remote_calls w
  ∧ saved_accounts r.2 = saved_accounts w.
Proof. by destruct add_log. Qed.

(** A second [deauthorize] in a row changes neither the node settings
    nor any credential, and calls nothing: it persists the same record
    again (and logs again, when asked to). *)
Lemma deauthorize_idempotent (auth : option Auth) (add_log : bool) (w : World) :
  let w1 := (run (deauthorize E auth add_log) w).2 in
  let r := run (deauthorize E auth add_log) w1 in
  r.1 = Return tt
  ∧ addon r.2 = addon w1
  ∧ saved_accounts r.2 = saved_accounts w1
  ∧ remote_calls r.2 = remote_calls w1
  ∧ hd_error (saved r.2) = hd_error (saved w1).
Proof. by destruct add_log. Qed.

End LinkedFolder.

Section LinkedFolderExamples.
Import Framework Onedrive.

(** C5.  A second [set_folder] on the same instance does not refresh the
    metadata: after choosing folder "123" and then folder "456" (which
    the provider knows as "Photos", under "Pictures"), the folder id is
    "456" while the stored name and path, and the memo, are still those
    of "123"; the provider was asked once, for "123". *)
Theorem set_folder_keeps_stale_metadata :
  let w1 := (run (set_folder Fixtures.provider "123" None)
                 (Fixtures.world_of Fixtures.linked)).2 in
  let r := run (set_folder Fixtures.provider "456" None) w1 in
  r.1 = Return tt
  ∧ folder_id (addon r.2) = Some "456"
  ∧ folder_name (addon r.2) = Some "Reports"
  ∧ folder_path (addon r.2) = Some "Documents/Reports"
  ∧ _folder_data (addon r.2) = Some Fixtures.reports
  ∧ remote_calls r.2 = [CallGetFolder "key-1" "123"]
  ∧ client_get_folder Fixtures.provider "key-1" "456" = inr Fixtures.photos
  ∧ full_path Fixtures.photos = "Pictures/Photos".
Proof. repeat split. Qed.

(** C6.  [deauthorize] on a configured node clears the folder id and
    the two references, and keeps the cached metadata: the stored name
    and path and the memo are still those of folder "123". *)
Theorem deauthorize_keeps_cached_metadata :
  let r := run (deauthorize Fixtures.provider None true)
               (Fixtures.world_of Fixtures.configured) in
  r.1 = Return tt
  ∧ folder_id (addon r.2) = None
  ∧ user_settings (addon r.2) = None
  ∧ external_account (addon r.2) = None
  ∧ folder_name (addon r.2) = Some "Reports"
  ∧ folder_path (addon r.2) = Some "Documents/Reports"
  ∧ _folder_data (addon r.2) = Some Fixtures.reports.
Proof. repeat split. Qed.

(** The node that results is not in the Unconfigured state. *)
Lemma deauthorize_not_unconfigured :
  ¬ unconfigured (addon (run (deauthorize Fixtures.provider None true)
                             (Fixtures.world_of Fixtures.configured)).2).
Proof. intros (_ & Hname & _). discriminate Hname. Qed.

End LinkedFolderExamples.


(** ** Contributor abbreviation: bounds other than the default *)

Section AbbreviateBounds.
Import Framework Contributor.

(** With a negative bound no position of the loop is the overflow
    position. *)
Lemma enumerate_negative_quiet (users : list User) (max_count : Z) :
  (max_count < 0)%Z →
  Forall (fun iu => overflows users max_count iu = false)
         (Py.enumerate (Py.slice_to users max_count)).
Proof.
  intros Hneg. apply Forall_lookup. intros j [i u] Hin.
  apply list_lookup_imap_Some in Hin as (y & Hj & Heq).
  injection Heq as -> ->. unfold overflows. simpl.
  destruct (Z.eqb_spec (Z.of_nat j) (max_count - 1)); [lia|done].
Qed.

(** X1.  A negative [max_count] makes [users[:max_count]] drop the last
    [-max_count] users: the abbreviation then has [max 0 (n + max_count)]
    entries, entry [i] carries the id of user [i], the separator is
    [" &"] at index [n - 2] (reached only when the bound is [-1]) and
    [","] everywhere else, and the users left out are never counted: the
    overflow count and its suffix stay empty. *)
Theorem abbreviate_negative_bound (users : list User) (max_count : Z) :
  (max_count < 0)%Z →
  let n := Z.of_nat (length users) in
  let r := abbreviate users max_count in
  Z.of_nat (length (contributors r)) = Z.max 0 (n + max_count)
  ∧ (∀ (i : nat) (u : User),
        users !! i = Some u → (Z.of_nat i < n + max_count)%Z →
        contributors r !! i
        = Some {| user_id := _primary_key u;
                  separator := if (Z.of_nat i =? n - 2)%Z then " &" else "," |})
  ∧ others_count r = None
  ∧ others_suffix r = "".
Proof.
  intros Hneg n r. subst r. split; [|split].
  - rewrite abbreviate_contributors, length_imap. unfold Py.slice_to.
    destruct (Z.leb_spec 0 max_count); [lia|].
    rewrite length_take. subst n. lia.
  - intros i u Hu Hi.
    rewrite abbreviate_contributors, list_lookup_imap. unfold Py.slice_to.
    destruct (Z.leb_spec 0 max_count); [lia|].
    rewrite lookup_take_lt by (subst n; lia). rewrite Hu. simpl.
    unfold rule_entry, spec_separator. simpl. fold n. do 2 f_equal.
    destruct (Z.eqb_spec (Z.of_nat i) (Z.min n max_count - 1)); [lia|].
    simpl. destruct (Z.eqb_spec (Z.of_nat i) (n - 1)); [lia|done].
  - unfold abbreviate.
    by edestruct loop_quiet as [-> ->]; [by apply enumerate_negative_quiet|].
Qed.

Lemma abbreviate_negative_bound_witness :
  (-1 < 0)%Z
  ∧ separators (abbreviate (mk_users ["a"; "b"; "c"]) (-1)) = [","; " &"]
  ∧ Z.of_nat (length (contributors (abbreviate (mk_users ["a"; "b"; "c"]) (-1))))
    = Z.max 0 (3 + -1).
Proof.
  split; [lia|]. split; [reflexivity|].
  exact (proj1 (abbreviate_negative_bound (mk_users ["a"; "b"; "c"]) (-1)
                  ltac:(lia))).
Defined.

(** X2.  Whenever the list overflows the bound ([1 <= max_count < n]),
    the overflow count is [n - 3] whatever the bound, and the suffix is
    ["s"] exactly for more than four users.  That count is the number of
    users left out, [n - max_count], only for the default bound 3; for a
    bound of 1 or 2 it is too small (and not positive for three users or
    fewer), for a larger bound too large. *)
Theorem abbreviate_overflow_count (users : list User) (max_count : Z) :
  let n := Z.of_nat (length users) in
  let r := abbreviate users max_count in
  (1 ≤ max_count < n)%Z →
  others_count r = Some (n - 3)%Z
  ∧ others_suffix r = (if (4 <? n)%Z then "s" else "")
  ∧ (others_count r = Some (n - max_count)%Z ↔ max_count = 3%Z)
  ∧ get_node_contributors_abbrev users true (Some max_count) = Return r.
Proof.
  intros n r Hover. subst r.
  destruct (enumerate_overflow users max_count Hover) as (l & u & Hl).
  assert (Hcount : others_count (abbreviate users max_count) = Some (n - 3)%Z
                   ∧ others_suffix (abbreviate users max_count)
                     = if (1 <? n - 3)%Z then "s" else "").
  { unfold abbreviate. rewrite Hl, fold_left_app. simpl.
    apply loop_body_overflow. unfold overflows. simpl. fold n.
    rewrite Z2Nat.id by lia. rewrite Z.eqb_refl.
    by destruct (Z.ltb_spec max_count n); [|lia]. }
  destruct Hcount as [Hc Hs]. split; [exact Hc|]. split; [|split; [|done]].
  - rewrite Hs. destruct (Z.ltb_spec 1 (n - 3)), (Z.ltb_spec 4 n); (done || lia).
  - rewrite Hc. split; [intros [= Heq]; lia|by intros ->].
Qed.

Lemma abbreviate_overflow_count_witness :
  (1 ≤ 1 < 2)%Z
  ∧ others_count (abbreviate (mk_users ["a"; "b"]) 1) = Some (-1)%Z.
Proof.
  split; [lia|].
  exact (proj1 (abbreviate_overflow_count (mk_users ["a"; "b"]) 1 ltac:(simpl; lia))).
Defined.

End AbbreviateBounds.


(** ** What the operations leave alone *)

Section Footprint.
Import Framework Onedrive OnedriveLifecycle.

Variable E : Env.

Lemma credential_only_refl (w : World) : credential_only w w.
Proof. by repeat split. Qed.

Lemma credential_only_call (c : RemoteCall) (w w1 : World) :
  credential_only w w1 → credential_only w (run (call c) w1).2.
Proof. intros ((? & ? & ? & ? & ?) & ? & ? & ? & ?). by repeat split. Qed.

(** Refreshing the token touches the credential only. *)
Lemma authenticated_client_credential_only (w : World) :
  credential_only w (run (authenticated_client E) w).2.
Proof.
  unfold authenticated_client, refresh_oauth_key, current_oauth_key.
  rewrite !run_bind, run_gets.
  destruct (external_account (addon w)) as [a|] eqn:Ha;
    [|apply credential_only_refl].
  destruct (expired E a) eqn:Hexp.
  - rewrite run_bind. simpl.
    by destruct (oauth_refresh E (refresh_token a)).
  - rewrite run_ret, run_bind, run_gets, Ha. apply credential_only_refl.
Qed.

(** The listing touches the credential only, whatever it answers. *)
Lemma folder_list_footprint (folderId : option string) (w : World) :
  credential_only w (run (onedrive_folder_list E folderId) w).2.
Proof.
  unfold onedrive_folder_list. rewrite run_bind, run_gets.
  destruct (has_auth (addon w)); [|apply credential_only_refl].
  simpl negb. cbv iota. rewrite run_bind, run_gets.
  destruct folderId as [fid|]; [|apply credential_only_refl].
  rewrite run_bind, run_try_client.
  pose proof (authenticated_client_credential_only w) as Hc.
  destruct (run (authenticated_client E) w) as [[client|e] w1]; simpl in Hc.
  - rewrite run_bind, run_try_retry, run_try_client, run_get_folder.
    apply (credential_only_call (CallGetFolder client fid)) in Hc.
    destruct (client_get_folder E client fid) as [[sc msg|]|md]; [done|done|].
    cbv beta iota. by destruct (is_deleted md).
  - by destruct e.
Qed.

(** X3.  Listing folders never changes what the node is linked to: the
    folder id, the stored name and path, the memo, the linked user
    settings, the persisted node and user records and the project log are
    what they were, whatever the request and whatever the outcome; only
    the credential may have been refreshed.  On a node without auth
    nothing at all happens: the request is turned away with HTTP 403
    before any call to the provider. *)
Theorem folder_list_read_only (folderId : option string) (w : World) :
  credential_only w (run (onedrive_folder_list E folderId) w).2
  ∧ (has_auth (addon w) = false →
       run (onedrive_folder_list E folderId) w = (Raise ForbiddenError, w)).
Proof.
  split; [apply folder_list_footprint|].
  intros Hauth. unfold onedrive_folder_list. by rewrite run_bind, run_gets, Hauth.
Qed.

End Footprint.

Section FootprintExamples.
Import Framework Onedrive OnedriveLifecycle.

Lemma folder_list_read_only_witness :
  has_auth (addon (Fixtures.world_of Fixtures.unlinked)) = false
  ∧ run (onedrive_folder_list Fixtures.provider (Some "123"))
        (Fixtures.world_of Fixtures.unlinked)
    = (Raise ForbiddenError, Fixtures.world_of Fixtures.unlinked).
Proof.
  split; [reflexivity|].
  exact (proj2 (folder_list_read_only Fixtures.provider (Some "123")
                  (Fixtures.world_of Fixtures.unlinked)) eq_refl).
Defined.

End FootprintExamples.


(** ** The memo and the stored name and path *)

Section MemoInvariant.
Import Framework Onedrive OnedriveLifecycle.

Variable E : Env.

Lemma memo_consistent_empty (s : OnedriveNodeSettings) :
  _folder_data s = None → memo_consistent s.
Proof. intros Hmemo md Hmd. by rewrite Hmemo in Hmd. Qed.

Lemma memo_consistent_same (s s1 : OnedriveNodeSettings) :
  _folder_data s1 = _folder_data s →
  folder_name s1 = folder_name s →
  folder_path s1 = folder_path s →
  memo_consistent s → memo_consistent s1.
Proof. intros Hm Hn Hp Hs md. rewrite Hm, Hn, Hp. apply Hs. Qed.

Lemma memo_consistent_same_folder (w w1 : World) :
  same_folder w w1 → memo_consistent (addon w) → memo_consistent (addon w1).
Proof. intros (_ & Hn & Hp & Hm & _). by apply memo_consistent_same. Qed.

(** The refresh keeps the memo and the stored name and path together,
    whether it fetches, gives up quietly or lets an error through. *)
Lemma update_folder_data_memo_consistent (w : World) :
  memo_consistent (addon w) →
  memo_consistent (addon (run (_update_folder_data E) w).2).
Proof.
  intros Hw.
  destruct (folder_id (addon w)) as [fid|] eqn:Hfid;
    [|by rewrite update_folder_data_unconfigured].
  destruct (_folder_data (addon w)) as [md0|] eqn:Hmemo;
    [by rewrite update_folder_data_memoized by (by rewrite Hmemo)|].
  destruct (run (fetch_folder_data E fid) w) as [[fetched|e] w1] eqn:Hfetch.
  - destruct (fetch_folder_data_returns E _ _ _ _ Hfetch) as ([md ->] & _).
    destruct (update_folder_data_fetched E w w1 fid md Hfid Hmemo Hfetch)
      as (_ & Hn & Hp & Hm).
    intros md' Hmd'. rewrite Hm in Hmd'. injection Hmd' as <-. by split.
  - apply memo_consistent_empty.
    destruct (fetch_folder_data_raises E _ _ _ _ Hfetch) as (_ & _ & _ & Hm & _).
    rewrite (update_folder_data_cold E w fid) by done.
    rewrite run_bind, run_try_client, Hfetch.
    destruct e; simpl; by rewrite Hm.
Qed.

(** X4.  An invariant of the node settings: whenever the memo is filled,
    the stored name and path are the name and the joined path of the
    memoized metadata.  It holds on an instance whose memo is empty (a
    fresh or a reloaded one), and every operation of the model and of the
    views keeps it, whatever its arguments and whether it returns or
    raises.  (The folder id is not part of it: see C5 and C6.) *)
Theorem memo_consistent_invariant (w : World) :
  memo_consistent (addon w) →
  memo_consistent (addon (run (_update_folder_data E) w).2)
  ∧ memo_consistent (addon (run (fetch_folder_name E) w).2)
  ∧ memo_consistent (addon (run (fetch_full_folder_path E) w).2)
  ∧ (∀ new_id auth, memo_consistent (addon (run (set_folder E new_id auth) w).2))
  ∧ (∀ us, memo_consistent (addon (run (set_user_auth us) w).2))
  ∧ (∀ auth add_log,
       memo_consistent (addon (run (deauthorize E auth add_log) w).2))
  ∧ memo_consistent (addon (run (serialize_waterbutler_credentials E) w).2)
  ∧ memo_consistent (addon (run serialize_waterbutler_settings w).2)
  ∧ (∀ folderId, memo_consistent (addon (run (onedrive_folder_list E folderId) w).2))
  ∧ (∀ auth, memo_consistent (addon (run (onedrive_remove_user_auth E auth) w).2))
  ∧ memo_consistent (addon (run (on_delete E) w).2).
Proof.
  intros Hw. pose proof (update_folder_data_memo_consistent w Hw) as Hupd.
  split; [exact Hupd|]. split; [|split; [|split; [|split; [|split;
    [|split; [|split; [|split; [|split]]]]]]]].
  - unfold fetch_folder_name. rewrite run_bind.
    destruct (run (_update_folder_data E) w) as [[[]|e] w1]; [|done].
    rewrite run_bind, run_gets. by destruct (folder_name (addon w1)).
  - unfold fetch_full_folder_path. rewrite run_bind.
    by destruct (run (_update_folder_data E) w) as [[[]|e] w1].
  - intros new_id auth. unfold set_folder. rewrite run_bind.
    set (w0 := (run (modify (with_folder_id (Some new_id))) w).2).
    change (run (modify (with_folder_id (Some new_id))) w) with (Return tt, w0).
    cbv beta iota. rewrite run_bind.
    pose proof (update_folder_data_memo_consistent w0 Hw) as Hupd0.
    destruct (run (_update_folder_data E) w0) as [[[]|e] w1]; [|done].
    pose proof (set_folder_tail auth w1) as Htail. cbv zeta in Htail.
    destruct Htail as (_ & Hn & Hp & Hm & _).
    by apply (memo_consistent_same (addon w1)).
  - intros us. exact Hw.
  - intros auth add_log.
    destruct (deauthorize_clears E auth add_log w)
      as (_ & _ & _ & _ & Hn & Hp & Hm & _).
    by apply (memo_consistent_same (addon w)).
  - unfold serialize_waterbutler_credentials. rewrite run_bind, run_gets.
    destruct (has_auth (addon w)); [|done]. simpl negb. cbv iota.
    rewrite run_try_client, run_bind.
    destruct (authenticated_client_same_folder E w) as (Hsame & _).
    apply memo_consistent_same_folder in Hsame; [|done].
    destruct (run (authenticated_client E) w) as [[key|e] w1]; [done|].
    by destruct e.
  - unfold serialize_waterbutler_settings. rewrite run_bind, run_gets.
    by destruct (folder_id (addon w)).
  - intros folderId.
    destruct (folder_list_footprint E folderId w) as (Hsame & _).
    by apply (memo_consistent_same_folder w).
  - intros auth. exact Hw.
  - exact Hw.
Qed.

End MemoInvariant.

Section MemoInvariantExamples.
Import Framework Onedrive OnedriveLifecycle.

Lemma memo_consistent_invariant_witness :
  memo_consistent (addon (Fixtures.world_of Fixtures.linked))
  ∧ memo_consistent
      (addon (run (set_folder Fixtures.provider "123" None)
                  (Fixtures.world_of Fixtures.linked)).2)
  ∧ _folder_data
      (addon (run (set_folder Fixtures.provider "123" None)
                  (Fixtures.world_of Fixtures.linked)).2)
    = Some Fixtures.reports.
Proof.
  assert (H0 : memo_consistent (addon (Fixtures.world_of Fixtures.linked)))
    by exact (memo_consistent_empty (addon (Fixtures.world_of Fixtures.linked))
               eq_refl).
  split; [exact H0|]. split; [|reflexivity].
  exact (proj1 (proj2 (proj2 (proj2
           (memo_consistent_invariant Fixtures.provider
              (Fixtures.world_of Fixtures.linked) H0)))) "123" None).
Defined.

End MemoInvariantExamples.


(** ** Taking the authorization away *)

Section Revocation.
Import Framework Onedrive OnedriveLifecycle.

Variable E : Env.

(** X5.  Removing the authorization from the settings page always
    returns, whatever the state of the node.  Afterwards the node has no
    auth, no folder id and no credential; the project log has gained one
    entry, [node_deauthorized], which names the folder that was linked
    and the caller; what is persisted is the node as it now is; the
    provider was not called and the user's credential was not touched.
    From then on the folder listing answers HTTP 403 without calling
    anything, the file server gets [AddonError] for the credentials and
    for the settings, and the share-emails view answers HTTP 400 to
    everyone. *)
Theorem remove_user_auth_revokes (auth : Auth) (w : World) :
  let r := run (onedrive_remove_user_auth E auth) w in
  r.1 = Return tt
  ∧ has_auth (addon r.2) = false
  ∧ folder_id (addon r.2) = None
  ∧ external_account (addon r.2) = None
  ∧ logs r.2 = {| log_action := "node_deauthorized";
                  log_extra := Some (folder_id (addon w));
                  log_auth := Some auth |} :: logs w
  ∧ hd_error (saved r.2) = Some (stored_of (addon r.2))
  ∧ remote_calls r.2 = remote_calls w
  ∧ saved_accounts r.2 = saved_accounts w
  ∧ (∀ folderId,
       run (onedrive_folder_list E folderId) r.2 = (Raise ForbiddenError, r.2))
  ∧ run (serialize_waterbutler_credentials E) r.2
    = (Raise (AddonError "Addon is not authorized"), r.2)
  ∧ run serialize_waterbutler_settings r.2
    = (Raise (AddonError "Folder is not configured"), r.2)
  ∧ (∀ caller, onedrive_get_share_emails caller (addon r.2)
               = Raise (HTTPError BAD_REQUEST None)).
Proof. repeat split. Qed.

(** X6.  Deleting the node settings always returns, leaves the node
    settings exactly as removing the authorization does, and is silent:
    nothing is added to the project log, the provider is not called and
    the user's credential is not touched.  The stored name and path and
    the memo survive it. *)
Theorem on_delete_silent (w : World) :
  let r := run (on_delete E) w in
  r.1 = Return tt
  ∧ (∀ auth, addon r.2 = addon (run (onedrive_remove_user_auth E auth) w).2)
  ∧ logs r.2 = logs w
  ∧ remote_calls r.2 = remote_calls w
  ∧ saved_accounts r.2 = saved_accounts w
  ∧ hd_error (saved r.2) = Some (stored_of (addon r.2))
  ∧ st_linked (stored_of (addon r.2)) = false
  ∧ folder_name (addon r.2) = folder_name (addon w)
  ∧ folder_path (addon r.2) = folder_path (addon w)
  ∧ _folder_data (addon r.2) = _folder_data (addon w).
Proof. repeat split. Qed.


End Revocation.

Section RevocationExamples.
Import Framework Onedrive OnedriveLifecycle.


End RevocationExamples.


(** ** Choosing a folder: what is persisted and logged *)

Section SetFolder.
Import Framework Onedrive OnedriveLifecycle.

Variable E : Env.

(** The refresh never touches the folder id, the linked user settings,
    the owner, the persisted user records or the project log. *)
Lemma update_folder_data_keeps (w : World) :
  let w1 := (run (_update_folder_data E) w).2 in
  folder_id (addon w1) = folder_id (addon w)
  ∧ user_settings (addon w1) = user_settings (addon w)
  ∧ owner (addon w1) = owner (addon w)
  ∧ saved_user_settings w1 = saved_user_settings w
  ∧ logs w1 = logs w.
Proof.
  intros w1. subst w1.
  destruct (folder_id (addon w)) as [fid|] eqn:Hfid;
    [|by rewrite update_folder_data_unconfigured].
  destruct (_folder_data (addon w)) as [md0|] eqn:Hmemo;
    [by rewrite update_folder_data_memoized by (by rewrite Hmemo)|].
  rewrite (update_folder_data_cold E w fid) by done.
  rewrite run_bind, run_try_client. unfold fetch_folder_data. rewrite run_bind.
  destruct (authenticated_client_credential_only E w)
    as ((Hi & _) & Ho & Hu & Hs & Hl).
  rewrite <- Hfid, <- Hi, <- Ho, <- Hu, <- Hs, <- Hl.
  destruct (run (authenticated_client E) w) as [[client|e] w0].
  - rewrite run_bind, run_get_folder.
    by destruct (client_get_folder E client fid) as [[sc msg|]|md].
  - by destruct e.
Qed.

(** X7.  On a node to which no user settings are linked, [set_folder]
    fails with [AttributeError] (it reads an attribute of the missing
    settings) once the refresh has returned; by then the new folder id is
    set and persisted, and no [folder_selected] entry is logged. *)
Theorem set_folder_without_user_settings (new_id : string) (auth : option Auth)
    (w w1 : World) :
  user_settings (addon w) = None →
  run (_update_folder_data E) (run (modify (with_folder_id (Some new_id))) w).2
  = (Return tt, w1) →
  let r := run (set_folder E new_id auth) w in
  r.1 = Raise AttributeError
  ∧ folder_id (addon r.2) = Some new_id
  ∧ hd_error (saved r.2) = Some (stored_of (addon r.2))
  ∧ st_folder_id (stored_of (addon r.2)) = Some new_id
  ∧ logs r.2 = logs w.
Proof.
  intros Hus Hupd r. subst r.
  pose proof (update_folder_data_keeps
                (run (modify (with_folder_id (Some new_id))) w).2) as Hkeep.
  cbv zeta in Hkeep. rewrite Hupd in Hkeep. simpl in Hkeep.
  destruct Hkeep as (Hi & Hu & _ & _ & Hl). rewrite Hus in Hu.
  unfold set_folder. rewrite run_bind.
  change (run (modify (with_folder_id (Some new_id))) w)
    with (Return tt, (run (modify (with_folder_id (Some new_id))) w).2).
  cbv beta iota. rewrite run_bind, Hupd. cbv beta iota.
  rewrite run_bind. cbn [run save]. rewrite run_bind, run_gets, run_bind.
  cbn [addon]. unfold complete, has_auth. rewrite Hu. simpl.
  rewrite !run_bind, !run_gets. cbn [addon]. rewrite Hu. simpl. by rewrite Hi, Hl.
Qed.

(** X8.  Whenever [set_folder] returns, the folder id is the one that was
    given, the project log has gained exactly one entry, [folder_selected]
    in the name of the caller, what was persisted last is the node as it
    now is, and user settings are linked.  It does return on a node with
    linked user settings whose memo is filled, without calling the
    provider. *)
Theorem set_folder_returns (new_id : string) (auth : option Auth) (w : World) :
  (∀ w', run (set_folder E new_id auth) w = (Return tt, w') →
     folder_id (addon w') = Some new_id
     ∧ logs w' = {| log_action := "folder_selected"; log_extra := None;
                    log_auth := auth |} :: logs w
     ∧ hd_error (saved w') = Some (stored_of (addon w'))
     ∧ is_Some (user_settings (addon w'))
     ∧ owner (addon w') = owner (addon w))
  ∧ (is_Some (_folder_data (addon w)) → is_Some (user_settings (addon w)) →
       (run (set_folder E new_id auth) w).1 = Return tt
       ∧ remote_calls (run (set_folder E new_id auth) w).2 = remote_calls w).
Proof.
  split.
  - intros w'. unfold set_folder. rewrite run_bind.
    set (w0 := (run (modify (with_folder_id (Some new_id))) w).2).
    change (run (modify (with_folder_id (Some new_id))) w) with (Return tt, w0).
    cbv beta iota. rewrite run_bind.
    pose proof (update_folder_data_keeps w0) as Hkeep. cbv zeta in Hkeep.
    destruct (run (_update_folder_data E) w0) as [[[]|e] w1]; [|discriminate].
    simpl in Hkeep. destruct Hkeep as (Hi & Hu & Ho & _ & Hl).
    rewrite run_bind. cbn [run save]. rewrite run_bind, run_gets, run_bind.
    cbn [addon]. unfold complete, has_auth.
    destruct (user_settings (addon w1)) as [us|] eqn:Hus.
    + destruct (us_has_auth us && verify_oauth_access us (owner (addon w1)));
        simpl; rewrite ?run_bind, ?run_gets; cbn [addon]; rewrite ?Hus; simpl;
        intros [= <-]; simpl; rewrite ?Hus, Hi, Hl, Ho; by repeat split.
    + simpl. rewrite !run_bind, !run_gets. cbn [addon]. rewrite Hus. simpl.
      discriminate.
  - intros Hmemo [us Hus]. unfold set_folder.
    rewrite run_bind. cbn [run modify]. rewrite run_bind.
    rewrite update_folder_data_memoized by done. cbv beta iota.
    rewrite run_bind. cbn [run save]. rewrite run_bind, run_gets, run_bind.
    cbn [addon with_folder_id user_settings complete has_auth].
    unfold complete, has_auth. simpl. rewrite Hus.
    destruct (us_has_auth us && verify_oauth_access us (owner (addon w)));
      simpl; rewrite ?run_bind, ?run_gets; cbn [addon]; simpl; rewrite ?Hus; done.
Qed.

End SetFolder.

Section SetFolderExamples.
Import Framework Onedrive OnedriveLifecycle.

Lemma set_folder_without_user_settings_witness :
  user_settings (with_user_settings None Fixtures.linked) = None
  ∧ (run (set_folder Fixtures.provider "123" None)
         (Fixtures.world_of (with_user_settings None Fixtures.linked))).1
    = Raise AttributeError.
Proof.
  split; [reflexivity|].
  exact (proj1 (set_folder_without_user_settings Fixtures.provider "123" None
                  (Fixtures.world_of (with_user_settings None Fixtures.linked))
                  (run (_update_folder_data Fixtures.provider)
                       (run (modify (with_folder_id (Some "123")))
                            (Fixtures.world_of
                               (with_user_settings None Fixtures.linked))).2).2
                  eq_refl eq_refl)).
Defined.

Lemma set_folder_returns_witness :
  (run (set_folder Fixtures.provider "456" None)
       (Fixtures.world_of Fixtures.configured)).1 = Return tt
  ∧ folder_id (addon (run (set_folder Fixtures.provider "456" None)
                          (Fixtures.world_of Fixtures.configured)).2)
    = Some "456".
Proof.
  split; [reflexivity|].
  exact (proj1 (proj1 (set_folder_returns Fixtures.provider "456" None
                         (Fixtures.world_of Fixtures.configured))
                  (run (set_folder Fixtures.provider "456" None)
                       (Fixtures.world_of Fixtures.configured)).2
                  eq_refl)).
Defined.

End SetFolderExamples.


(** ** From the folder picker to the settings *)

Section Picker.
Import Framework Onedrive OnedriveLifecycle.

(** X10.  The path the listing shows for a sub-folder is the path the
    node settings store once that sub-folder is chosen: if the provider
    describes the child by the ancestors of its parent followed by the
    parent, then the child's stored path is the parent's path, a slash
    and the child's name; and for a parent path that is not empty and
    does not end with a slash, and a child name that does not start with
    one, this is the path of the child's entry in the listing of the
    parent. *)
Theorem listed_path_is_stored_path (E : Env) (node : Node)
    (parent child : FolderMetadata) (item : Item) :
  path_collection child
  = (path_collection parent ++ [{| entry_name := md_name parent |}])%list →
  md_name child = item_name item →
  full_path child = full_path parent +:+ "/" +:+ md_name child
  ∧ (full_path parent ≠ "" →
     Py.endswith_char "/" (full_path parent) = false →
     Py.startswith "/" (item_name item) = false →
     fe_path (child_entry E node (full_path parent) item) = full_path child).
Proof.
  intros Hpath Hname.
  assert (Hchild : full_path child = full_path parent +:+ "/" +:+ md_name child).
  { unfold full_path at 1. rewrite Hpath, fmap_app. simpl.
    rewrite join_snoc; [done|].
    by destruct (entry_name <$> path_collection parent). }
  split; [exact Hchild|].
  intros Hne Hend Hstart. simpl.
  rewrite posixpath_join_plain by done. by rewrite Hchild, Hname.
Qed.

Lemma listed_path_is_stored_path_witness :
  path_collection
    {| md_id := "1"; md_name := "Q1";
       path_collection := [{| entry_name := "Documents" |};
                           {| entry_name := "Reports" |}];
       item_collection := []; is_deleted := false |}
  = (path_collection Fixtures.reports
       ++ [{| entry_name := md_name Fixtures.reports |}])%list
  ∧ full_path
      {| md_id := "1"; md_name := "Q1";
         path_collection := [{| entry_name := "Documents" |};
                             {| entry_name := "Reports" |}];
         item_collection := []; is_deleted := false |}
    = "Documents/Reports/Q1".
Proof.
  split; [reflexivity|].
  exact (proj1 (listed_path_is_stored_path Fixtures.provider Fixtures.project
                  Fixtures.reports
                  {| md_id := "1"; md_name := "Q1";
                     path_collection := [{| entry_name := "Documents" |};
                                         {| entry_name := "Reports" |}];
                     item_collection := []; is_deleted := false |}
                  {| item_id := "1"; item_name := "Q1"; item_type := "folder" |}
                  eq_refl eq_refl)).
Defined.


(** X11.  The settings view answers exactly when [set_folder] returns,
    and lets its failure through otherwise; the response echoes the path
    of the request, and its links are read from the node settings once
    the folder is set.  The name it reports is computed from the path of
    the request alone: the root ["All Files"] is reported as
    ["/ (Full Onedrive)"], and a path below the root is reported without
    its leading ["All Files"] (and without any later occurrence of it),
    which for a rest without a capital A is that rest unchanged. *)
Theorem set_config_reports_relative_path {Urls : Type} (E : Env)
    (urls : OnedriveNodeSettings → Urls) (folder : Selected) (auth : Auth)
    (w : World) :
  (∀ w', run (set_folder E (sel_id folder) (Some auth)) w = (Return tt, w') →
     run (onedrive_set_config E urls folder auth) w
     = (Return {| cfg_name := reported_name (sel_path folder);
                  cfg_path := sel_path folder;
                  cfg_urls := urls (addon w');
                  cfg_message := "Successfully updated settings." |}, w'))
  ∧ (∀ e w', run (set_folder E (sel_id folder) (Some auth)) w = (Raise e, w') →
       run (onedrive_set_config E urls folder auth) w = (Raise e, w'))
  ∧ (sel_path folder = "All Files" →
       reported_name (sel_path folder) = "/ (Full Onedrive)")
  ∧ (∀ rest, sel_path folder = "All Files" +:+ rest → rest ≠ "" →
       reported_name (sel_path folder) = Py.replace "All Files" "" rest
       ∧ (Py.lacks "A" rest = true → reported_name (sel_path folder) = rest)).
Proof.
  split; [|split; [|split]].
  - intros w' Hset. unfold onedrive_set_config. by rewrite run_bind, Hset.
  - intros e w' Hset. unfold onedrive_set_config. by rewrite run_bind, Hset.
  - by intros ->.
  - intros rest -> Hne.
    assert (Hrest : reported_name ("All Files" +:+ rest)
                    = Py.replace "All Files" "" rest).
    { unfold reported_name. rewrite bool_decide_eq_true_2.
      - by rewrite replace_prefix.
      - intros Heq. destruct rest as [|a rest]; [done|]. cbv in Heq.
        discriminate Heq. }
    split; [exact Hrest|].
    intros Hlacks. rewrite Hrest. by apply replace_lacks.
Qed.

Lemma set_config_reports_relative_path_witness :
  "/Documents/Reports" ≠ ""
  ∧ Py.lacks "A" "/Documents/Reports" = true
  ∧ reported_name "All Files/Documents/Reports" = "/Documents/Reports".
Proof.
  split; [discriminate|]. split; [reflexivity|].
  exact (proj2 (proj2 (proj2 (proj2
           (set_config_reports_relative_path Fixtures.provider
              (fun _ => tt)
              {| sel_id := "123"; sel_path := "All Files/Documents/Reports" |}
              {| user := Fixtures.alice |}
              (Fixtures.world_of Fixtures.linked))))
           "/Documents/Reports" eq_refl ltac:(discriminate)) eq_refl).
Defined.

End Picker.


(** ** The views that list users *)

Section ContributorLists.
Import Framework ContributorViews.

Context {Json : Type}.
Variable site : Site Json.

(** Nobody is left to propose once everybody is on the node. *)
Lemma filter_not_elem_of_covered (on_node proposed : list User) :
  (∀ c, c ∈ proposed → c ∈ on_node) →
  filter (fun contrib => contrib ∉ on_node) proposed = [].
Proof.
  induction proposed as [|c l IH]; intros Hall; [done|].
  rewrite filter_cons_False by (intros Hc; apply Hc, Hall; left).
  apply IH. intros c' Hc'. apply Hall. by right.
Qed.

Lemma covered_after_adding (on_node candidates : list User) (c : User) :
  c ∈ candidates →
  c ∈ (on_node ++ filter (fun contrib => contrib ∉ on_node) candidates)%list.
Proof.
  intros Hc. apply elem_of_app.
  destruct (decide (c ∈ on_node)) as [Hin|Hout]; [by left|right].
  by apply list_elem_of_filter.
Qed.

(** X12.  The two views that propose users to add never propose somebody
    who is on the node already: what they return are the dictionaries of
    the candidates (the contributors of the parent, or the users the
    caller added recently) that are not contributors of the node, in the
    order of the candidates; and once the proposed users have all been
    added, nobody is proposed any more.  A node without a parent is
    answered with HTTP 400 even to a caller who may not view it; with a
    parent, and for the recently added users, such a caller gets HTTP
    403. *)
Theorem proposed_contributors_are_new (node : Node) (node__parent : list Node)
    (recently_added : list User) (can_view : bool) :
  let new_of candidates :=
    filter (fun contrib => contrib ∉ contributors node) candidates in
  (node__parent = [] →
     get_contributors_from_parent site node node__parent can_view
     = Raise (HTTPError BAD_REQUEST None))
  ∧ (∀ parent others, node__parent = parent :: others →
       get_contributors_from_parent site node node__parent can_view
       = if can_view
         then Return (_add_contributor_json site <$> new_of (contributors parent))
         else Raise (HTTPError FORBIDDEN None))
  ∧ get_recently_added_contributors site node recently_added can_view
    = (if can_view
       then Return (_add_contributor_json site <$> new_of recently_added)
       else Raise (HTTPError FORBIDDEN None))
  ∧ (∀ candidates c, c ∈ new_of candidates ↔ c ∈ candidates ∧ c ∉ contributors node)
  ∧ (∀ parent others, node__parent = parent :: others →
       get_contributors_from_parent site
         (add_contributors node (new_of (contributors parent))) node__parent true
       = Return [])
  ∧ get_recently_added_contributors site
      (add_contributors node (new_of recently_added)) recently_added true
    = Return [].
Proof.
  intros new_of. subst new_of. cbv beta.
  split; [by intros ->|]. split; [intros parent others ->; by destruct can_view|].
  split; [by destruct can_view|].
  split; [intros candidates c; rewrite list_elem_of_filter; tauto|].
  split.
  - intros parent others ->. unfold get_contributors_from_parent. simpl.
    rewrite filter_not_elem_of_covered; [done|].
    intros c Hc. by apply covered_after_adding.
  - unfold get_recently_added_contributors. simpl.
    rewrite filter_not_elem_of_covered; [done|].
    intros c Hc. by apply covered_after_adding.
Qed.

(** The loop of [_jsonify_contribs], from any state of its two lists. *)
Lemma jsonify_loop (contribs : list ContribDict) (acc : list Json * list string) :
  fold_left (jsonify_step site) contribs acc
  = ((acc.1 ++ omap (jsonified site) contribs)%list,
     (acc.2 ++ omap (complaint site) contribs)%list).
Proof.
  revert acc. induction contribs as [|c l IH]; intros [data errors].
  - simpl. by rewrite !app_nil_r.
  - simpl. rewrite IH. unfold jsonify_step, jsonified, complaint. simpl.
    destruct (cd_id c) as [id|]; [destruct (load site id) as [u|]|]; simpl;
      by rewrite <- ?app_assoc.
Qed.

Lemma jsonified_or_complaint (contribs : list ContribDict) :
  (length (omap (jsonified site) contribs)
   + length (omap (complaint site) contribs))%nat = length contribs.
Proof.
  induction contribs as [|c l IH]; [done|].
  simpl. unfold jsonified at 1, complaint at 1.
  destruct (cd_id c) as [id|]; [destruct (load site id) as [u|]|]; simpl; unfold omap in IH; lia.
Qed.

(** X13.  [_jsonify_contribs] never fails on a contributor whose user
    record cannot be loaded: it leaves that contributor out and logs one
    error line for it.  In the order of the list, the result holds the
    serialized user of every registered contributor that loads and the
    serialized dictionary of every unregistered one, so it is shorter
    than the list by exactly the number of lines logged.
    [get_contributors] hands this result to a caller who may view the
    node, and answers HTTP 403 to the others without loading anybody. *)
Theorem jsonify_contribs_skips_missing_users (contribs : list ContribDict) :
  let r := _jsonify_contribs site contribs in
  r.1 = omap (jsonified site) contribs
  ∧ r.2 = omap (complaint site) contribs
  ∧ (length r.1 + length r.2)%nat = length contribs
  ∧ (∀ c id, c ∈ contribs → cd_id c = Some id → load site id = None →
       "User " +:+ id +:+ " not found" ∈ r.2)
  ∧ (∀ c, c ∈ contribs → cd_id c = None → serialize_unreg_user site c ∈ r.1)
  ∧ get_contributors site contribs true = (Return r.1, r.2)
  ∧ get_contributors site contribs false = (Raise (HTTPError FORBIDDEN None), []).
Proof.
  intros r. subst r. unfold get_contributors, _jsonify_contribs.
  rewrite jsonify_loop. simpl.
  split; [done|]. split; [done|]. split; [apply jsonified_or_complaint|].
  split; [|split; [|done]].
  - intros c id Hc Hid Hload. apply list_elem_of_omap. exists c.
    split; [done|]. unfold complaint. by rewrite Hid, Hload.
  - intros c Hc Hid. apply list_elem_of_omap. exists c.
    split; [done|]. unfold jsonified. by rewrite Hid.
Qed.

End ContributorLists.

Section ContributorListExamples.
Import Framework ContributorViews.

Lemma proposed_contributors_are_new_witness :
  [DirectoryFixtures.parent_project] = [DirectoryFixtures.parent_project]
  ∧ get_contributors_from_parent DirectoryFixtures.site
      DirectoryFixtures.component [DirectoryFixtures.parent_project] true
    = Return (_add_contributor_json DirectoryFixtures.site
                <$> [Fixtures.bob; DirectoryFixtures.dave]).
Proof.
  split; [reflexivity|].
  exact (proj1 (proj2 (proposed_contributors_are_new DirectoryFixtures.site
                         DirectoryFixtures.component
                         [DirectoryFixtures.parent_project] [] true))
           DirectoryFixtures.parent_project [] eq_refl).
Defined.

Lemma jsonify_contribs_skips_missing_users_witness :
  cd_id {| cd_id := Some "gone"; cd_fields := [] |} = Some "gone"
  ∧ load DirectoryFixtures.site "gone" = None
  ∧ "User gone not found"
    ∈ (_jsonify_contribs DirectoryFixtures.site
         DirectoryFixtures.contributor_list).2.
Proof.
  split; [reflexivity|]. split; [reflexivity|].
  exact (proj1 (proj2 (proj2 (proj2
           (jsonify_contribs_skips_missing_users DirectoryFixtures.site
              DirectoryFixtures.contributor_list))))
           {| cd_id := Some "gone"; cd_fields := [] |} "gone"
           ltac:(repeat constructor) eq_refl eq_refl).
Defined.

(** The directory of the examples at work: the dangling id is left out
    and logged, the order is kept. *)
Example get_contributors_scenario :
  get_contributors DirectoryFixtures.site DirectoryFixtures.contributor_list true
  = (Return ["alice@osf.io"; "(not registered)"; "bob@osf.io"],
     ["User gone not found"]).
Proof. reflexivity. Qed.

End ContributorListExamples.


(** ** What a successful listing says *)

Section ListingAnswers.
Import Framework Onedrive OnedriveLifecycle.

Variable E : Env.

(** X14.  Whenever the listing of a folder returns entries, the node has
    auth, the provider has answered the request for exactly that folder
    (made last, with the key the refresh left) with metadata that is not
    marked deleted, and the entries are the sub-folders of that metadata
    and nothing else: one entry per item of type ["folder"], in the
    provider's order, with the item's id and name, kind ["folder"] and the
    addon's short name; files are never listed. *)
Theorem folder_list_answers_subfolders (fid : string) (w w' : World)
    (entries : list FolderEntry) :
  run (onedrive_folder_list E (Some fid)) w = (Return entries, w') →
  has_auth (addon w) = true
  ∧ ∃ client md,
      (run (authenticated_client E) w).1 = Return client
      ∧ client_get_folder E client fid = inr md
      ∧ is_deleted md = false
      ∧ hd_error (remote_calls w') = Some (CallGetFolder client fid)
      ∧ fe_id <$> entries
        = item_id <$> filter (fun item => item_type item = "folder")
                             (item_collection md)
      ∧ fe_name <$> entries
        = item_name <$> filter (fun item => item_type item = "folder")
                               (item_collection md)
      ∧ Forall (fun entry => fe_kind entry = "folder"
                             ∧ fe_addon entry = "onedrive") entries.
Proof.
  intros Hrun.
  destruct (has_auth (addon w)) eqn:Hauth.
  2:{ unfold onedrive_folder_list in Hrun.
      rewrite run_bind, run_gets, Hauth in Hrun. discriminate Hrun. }
  split; [done|].
  rewrite folder_list_authorized in Hrun by done.
  rewrite run_bind, run_try_client in Hrun.
  destruct (run (authenticated_client E) w) as [[client|e] w1];
    [|destruct e; discriminate Hrun].
  rewrite run_bind, run_try_retry, run_try_client, run_get_folder in Hrun.
  exists client.
  destruct (client_get_folder E client fid) as [[sc msg|]|md];
    [discriminate Hrun|discriminate Hrun|].
  exists md. cbv beta iota in Hrun.
  destruct (is_deleted md); [discriminate Hrun|].
  injection Hrun as <- <-.
  split; [done|]. split; [done|]. split; [done|]. split; [done|].
  split; [by rewrite <- list_fmap_compose|].
  split; [by rewrite <- list_fmap_compose|].
  apply Forall_fmap, Forall_true. by intros item.
Qed.

End ListingAnswers.

Section ListingAnswersExamples.
Import Framework Onedrive OnedriveLifecycle.

Lemma folder_list_answers_subfolders_witness :
  (run (onedrive_folder_list Fixtures.provider (Some "123"))
       (Fixtures.world_of Fixtures.linked)).1
  = Return [child_entry Fixtures.provider Fixtures.project "Documents/Reports"
              {| item_id := "1"; item_name := "Q1"; item_type := "folder" |}]
  ∧ has_auth (addon (Fixtures.world_of Fixtures.linked)) = true.
Proof.
  split; [reflexivity|].
  exact (proj1 (folder_list_answers_subfolders Fixtures.provider "123"
                  (Fixtures.world_of Fixtures.linked)
                  (run (onedrive_folder_list Fixtures.provider (Some "123"))
                       (Fixtures.world_of Fixtures.linked)).2
                  [child_entry Fixtures.provider Fixtures.project
                     "Documents/Reports"
                     {| item_id := "1"; item_name := "Q1";
                        item_type := "folder" |}]
                  eq_refl)).
Defined.

End ListingAnswersExamples.
